(** * Fitness tracker module: a shallow embedding and its properties

    The repository holds two versions of the same Python module,
    [fitness_tracker.py] and [homework.py].  Both compute distance, mean
    speed and spent calories for three kinds of training (running, sports
    walking, swimming) and build an [InfoMessage] from them.

    Python numbers are modelled as they are at run time: [int] is an
    unbounded integer ([Z]) and [float] is an IEEE-754 binary64 number
    ([spec_float] with precision 53 and maximal exponent 1024, every
    operation of the language rounding to nearest, ties to even).  The one
    operation that Python hands over to the C library, [** 2] on a float,
    is computed by the library's [pow], which is a parameter of the model.
    Exceptions are values of an error monad; methods are computations over
    the receiving object. *)

From Stdlib Require Import ZArith Lia.
From Stdlib Require Import Floats.SpecFloat.
From stdpp Require Import base strings gmap pretty.

Local Open Scope Z_scope.

(** ** Python values, exceptions and arithmetic *)

Module Py.

(** *** binary64 *)

Definition prec : Z := 53.
Definition emax : Z := 1024.

Abbreviation float := spec_float.

Definition fadd : float -> float -> float := SFadd prec emax.
Definition fsub : float -> float -> float := SFsub prec emax.
Definition fmul : float -> float -> float := SFmul prec emax.
Definition fdiv : float -> float -> float := SFdiv prec emax.

(** The float nearest to an integer (ties to even); an infinity when the
    integer is out of range. *)
Definition float_of_Z (n : Z) : float := binary_normalize prec emax n 0 false.

(** A decimal literal, written as the quotient [p / q] of two integers
    that are exact as floats ([0.65] is [literal 65 100]): the source text
    is read as the nearest binary64 number, which is what the correctly
    rounded division of the two gives. *)
Definition literal (p q : Z) : float := fdiv (float_of_Z p) (float_of_Z q).

Definition fzero : float := S754_zero false.
Definition fone : float := float_of_Z 1.
Definition fhalf : float := literal 1 2.

Definition is_infinite (x : float) : bool :=
  match x with S754_infinity _ => true | _ => false end.

(** [x == 0.0] in C: true for both zeros, false for NaN. *)
Definition is_zero (x : float) : bool :=
  match x with S754_zero _ => true | _ => false end.

Definition sign_bit (x : float) : bool :=
  match x with
  | S754_zero s | S754_infinity s | S754_finite s _ _ => s
  | S754_nan => false
  end.

(** [x < 0.0] in C. *)
Definition is_negative (x : float) : bool := SFltb x fzero.

(** C's [fmod]: the exact remainder of [x / y] truncated toward zero; it
    has the sign of [x] and is always representable. *)
Definition fmod (x y : float) : float :=
  match x, y with
  | S754_nan, _ | _, S754_nan => S754_nan
  | S754_infinity _, _ => S754_nan
  | _, S754_zero _ => S754_nan
  | S754_zero _, _ => x
  | S754_finite _ _ _, S754_infinity _ => x
  | S754_finite sx mx ex, S754_finite _ my ey =>
      let e := Z.min ex ey in
      let X := Z.shiftl (Zpos mx) (ex - e) in
      let Y := Z.shiftl (Zpos my) (ey - e) in
      binary_normalize prec emax (cond_Zopp sx (X mod Y)) e sx
  end.

(** C's [floor]. *)
Definition ffloor (x : float) : float :=
  match x with
  | S754_finite s m e =>
      if 0 <=? e then x
      else binary_normalize prec emax
             (Z.shiftr (cond_Zopp s (Zpos m)) (- e)) 0 s
  | _ => x
  end.

(** The quotient part of CPython's [_float_div_mod], which implements
    [//] and [divmod] on floats; the divisor is known to be nonzero. *)
Definition float_div_mod_quot (vx wx : float) : float :=
  let md := fmod vx wx in
  let div := fdiv (fsub vx md) wx in
  let div :=
    if negb (is_zero md) && xorb (is_negative wx) (is_negative md)
    then fsub div fone else div in
  if negb (is_zero div) then
    let fl := ffloor div in
    if SFltb fhalf (fsub div fl) then fadd fl fone else fl
  else S754_zero (sign_bit (fdiv vx wx)).

(** *** Values and exceptions *)

Inductive value : Type :=
| VNone
| VInt (n : Z)
| VFloat (x : float).

Inductive exn : Type :=
| ZeroDivisionError
| OverflowError
| TypeError
| AttributeError
| KeyError (msg : string)
| UnboundLocalError (name : string).

Inductive result (A : Type) : Type :=
| Ok (a : A)
| Raise (e : exn).
Arguments Ok {A} a.
Arguments Raise {A} e.

Definition is_ok {A} (r : result A) : bool :=
  match r with Ok _ => true | Raise _ => false end.

#[export] Instance result_ret : MRet result := fun _ a => Ok a.
#[export] Instance result_bind : MBind result := fun _ _ f r =>
  match r with Ok a => f a | Raise e => Raise e end.

(** [PyLong_AsDouble]: an [int] too large for a float is an error, not
    an infinity. *)
Definition long_as_double (n : Z) : result float :=
  let x := float_of_Z n in
  if is_infinite x then Raise OverflowError else Ok x.

(** [CONVERT_TO_DOUBLE] of floatobject.c. *)
Definition as_double (v : value) : result float :=
  match v with
  | VFloat x => Ok x
  | VInt n => long_as_double n
  | VNone => Raise TypeError
  end.

(** [int / int] ([long_true_divide]): the exact quotient, correctly
    rounded. *)
Definition long_true_divide (a b : Z) : result value :=
  if b =? 0 then Raise ZeroDivisionError
  else if a =? 0 then Ok (VFloat (S754_zero (b <? 0)))
  else
    let q := fdiv (S754_finite (a <? 0) (Z.to_pos (Z.abs a)) 0)
                  (S754_finite (b <? 0) (Z.to_pos (Z.abs b)) 0) in
    if is_infinite q then Raise OverflowError else Ok (VFloat q).

Definition is_number (v : value) : bool :=
  match v with VNone => false | _ => true end.

(** The float methods answer only to numbers; both operands are then
    converted, the left one first. *)
Definition as_doubles (v w : value) : result (float * float) :=
  if is_number v && is_number w
  then a ← as_double v; b ← as_double w; Ok (a, b)
  else Raise TypeError.

Definition float_binop (op : float -> float -> float) (v w : value)
  : result value :=
  '(a, b) ← as_doubles v w; Ok (VFloat (op a b)).

(** [v * w] *)
Definition mul (v w : value) : result value :=
  match v, w with
  | VInt a, VInt b => Ok (VInt (a * b))
  | _, _ => float_binop fmul v w
  end.

(** [v + w] *)
Definition add (v w : value) : result value :=
  match v, w with
  | VInt a, VInt b => Ok (VInt (a + b))
  | _, _ => float_binop fadd v w
  end.

(** [v - w] *)
Definition sub (v w : value) : result value :=
  match v, w with
  | VInt a, VInt b => Ok (VInt (a - b))
  | _, _ => float_binop fsub v w
  end.

(** [v / w] *)
Definition truediv (v w : value) : result value :=
  match v, w with
  | VInt a, VInt b => long_true_divide a b
  | _, _ =>
      '(a, b) ← as_doubles v w;
      if is_zero b then Raise ZeroDivisionError else Ok (VFloat (fdiv a b))
  end.

(** [v // w] *)
Definition floordiv (v w : value) : result value :=
  match v, w with
  | VInt a, VInt b =>
      if b =? 0 then Raise ZeroDivisionError else Ok (VInt (a / b))
  | _, _ =>
      '(a, b) ← as_doubles v w;
      if is_zero b then Raise ZeroDivisionError
      else Ok (VFloat (float_div_mod_quot a b))
  end.

(** *** The C library

    [x ** 2] on a float ends in the C library's [pow(x, 2.0)], whose
    result is not fixed by Python: libraries differ in the last digit
    (glibc returns [14.612653022499998] where the correctly rounded square
    is [14.6126530225]).  The library is therefore a parameter, [Libm],
    known only to return the correctly rounded square or one of the two
    floats next to it (an error below one unit in the last place, which is
    what glibc documents). *)

Definition fpred : float -> float := SFpred prec emax.
Definition fsucc : float -> float := SFsucc prec emax.

(** [y] is [x] or one of the two floats next to [x]. *)
Definition adjacent (x y : float) : Prop :=
  y = fpred x \/ y = x \/ y = fsucc x.

Class Libm : Type := {
  (** [pow(x, 2.0)] *)
  pow2 : float -> float;
  pow2_adjacent : forall x, adjacent (fmul x x) (pow2 x)
}.

(** A library whose [pow] is correctly rounded. *)
Definition crlibm : Libm :=
  {| pow2 := fun x => fmul x x;
     pow2_adjacent := fun x => or_intror (or_introl eq_refl) |}.

(** [float_pow] of floatobject.c with exponent [2.0], [pow] being the
    library's function: NaN, infinities, zeros and [1.0] are answered
    before the library is called; a negative base is replaced by its
    absolute value; an infinite result raises [OverflowError] (the
    library leaves [errno] at [ERANGE] or the result is [HUGE_VAL]), and a
    result that underflows to zero is returned as it is. *)
Definition float_pow2 (pow : float -> float) (x : float) : result float :=
  match x with
  | S754_nan => Ok S754_nan
  | S754_infinity _ => Ok (S754_infinity false)
  | S754_zero _ => Ok fzero
  | S754_finite _ m e =>
      let iv := S754_finite false m e in
      if SFeqb iv fone then Ok fone
      else
        let ix := pow iv in
        if is_infinite ix then Raise OverflowError else Ok ix
  end.

(** [v ** 2] *)
Definition square {libm : Libm} (v : value) : result value :=
  match v with
  | VInt a => Ok (VInt (a * a))
  | VFloat x => r ← float_pow2 pow2 x; Ok (VFloat r)
  | VNone => Raise TypeError
  end.

(** A number equal to zero: [0], [0.0] or [-0.0]. *)
Definition is_zero_value (v : value) : bool :=
  match v with
  | VInt n => n =? 0
  | VFloat x => is_zero x
  | VNone => false
  end.

End Py.
Export Py.


(** ** Objects and methods

    An instance of [Training] or of one of its subclasses holds the fields
    its [__init__] assigned.  A method is a computation on the receiver: it
    may read the receiver, raise, and hand back the receiver as it leaves
    it. *)

Inductive cls : Type := CTraining | CRunning | CSportsWalking | CSwimming.

(** [cls.__name__] *)
Definition class_name (c : cls) : string :=
  match c with
  | CTraining => "Training"
  | CRunning => "Running"
  | CSportsWalking => "SportsWalking"
  | CSwimming => "Swimming"
  end.

Inductive training : Type :=
| Training (action duration weight : value)
| Running (action duration weight : value)
| SportsWalking (action duration weight height : value)
| Swimming (action duration weight length_pool count_pool : value).

(** [self.__class__] *)
Definition class_of (self : training) : cls :=
  match self with
  | Training _ _ _ => CTraining
  | Running _ _ _ => CRunning
  | SportsWalking _ _ _ _ => CSportsWalking
  | Swimming _ _ _ _ _ => CSwimming
  end.

Definition action (self : training) : value :=
  match self with
  | Training a _ _ | Running a _ _ | SportsWalking a _ _ _
  | Swimming a _ _ _ _ => a
  end.

Definition duration (self : training) : value :=
  match self with
  | Training _ d _ | Running _ d _ | SportsWalking _ d _ _
  | Swimming _ d _ _ _ => d
  end.

Definition weight (self : training) : value :=
  match self with
  | Training _ _ w | Running _ _ w | SportsWalking _ _ w _
  | Swimming _ _ w _ _ => w
  end.

(** Fields that only one subclass has; the methods that read them are
    defined in that subclass only. *)
Definition height (self : training) : result value :=
  match self with SportsWalking _ _ _ h => Ok h | _ => Raise AttributeError end.

Definition length_pool (self : training) : result value :=
  match self with Swimming _ _ _ l _ => Ok l | _ => Raise AttributeError end.

Definition count_pool (self : training) : result value :=
  match self with Swimming _ _ _ _ c => Ok c | _ => Raise AttributeError end.

(** Calling a class on the unpacked list [*data]: a wrong number of
    arguments is a [TypeError]; the values themselves are not inspected. *)
Definition new (c : cls) (data : list value) : result training :=
  match c, data with
  | CTraining, [a; d; w] => Ok (Training a d w)
  | CRunning, [a; d; w] => Ok (Running a d w)
  | CSportsWalking, [a; d; w; h] => Ok (SportsWalking a d w h)
  | CSwimming, [a; d; w; l; c] => Ok (Swimming a d w l c)
  | _, _ => Raise TypeError
  end.

(** The fields [duration], [distance], [speed] and [calories] of the
    message carry the prefix [msg_], the plain names being those of the
    training's own fields. *)
Record InfoMessage : Type := {
  training_type : string;
  msg_duration : value;
  msg_distance : value;
  msg_speed : value;
  msg_calories : value
}.

(** The method monad: state is the receiver, errors are exceptions. *)
Definition M (A : Type) : Type := training -> result A * training.

#[export] Instance M_ret : MRet M := fun _ a self => (Ok a, self).
#[export] Instance M_bind : MBind M := fun _ _ f m self =>
  match m self with
  | (Ok a, self') => f a self'
  | (Raise e, self') => (Raise e, self')
  end.

(** Reading [self.<field>]. *)
Definition self_ {A} (field : training -> A) : M A :=
  fun self => (Ok (field self), self).

(** A field of a subclass, or an operation, that may raise. *)
Definition lift {A} (r : result A) : M A := fun self => (r, self).

Definition self_try {A} (field : training -> result A) : M A :=
  fun self => (field self, self).

(** A class attribute reached through the receiver, [self.NAME]: looked
    up in the class of the receiver. *)
Definition self_class {A} (attr : cls -> A) : M A :=
  fun self => (Ok (attr (class_of self)), self).

(** Binary operators on computations: left operand first, then the right
    one, then the operation. *)
Definition binop (op : value -> value -> result value) (x y : M value)
  : M value :=
  a ← x; b ← y; lift (op a b).

Declare Scope py_scope.
Delimit Scope py_scope with py.
Bind Scope py_scope with M.
Notation "x * y" := (binop mul x y) : py_scope.
Notation "x / y" := (binop truediv x y) : py_scope.
Notation "x + y" := (binop add x y) : py_scope.
Notation "x - y" := (binop sub x y) : py_scope.
Notation "x // y" := (binop floordiv x y)
  (at level 40, left associativity) : py_scope.
Notation "x **2" := (a ← x; lift (square a))
  (at level 1, format "x **2") : py_scope.

Definition const (v : value) : M value := mret v.

(** Running a method on an object: the value it returns (or the exception
    it raises) and the object afterwards. *)
Definition call {A} (m : M A) (self : training) : result A := fst (m self).
Definition after {A} (m : M A) (self : training) : training := snd (m self).

(** ** fitness_tracker.py *)

Module FT.

(** Class attributes, as [self.NAME] finds them: in the class of the
    receiver first, then in [Training]. *)
Definition LEN_STEP (c : cls) : value :=
  match c with
  | CSwimming => VFloat (literal 138 100)
  | _ => VFloat (literal 65 100)
  end.
Definition M_IN_KM (c : cls) : value := VInt 1000.

Module Running.
Definition MIN_IN_HOUR : value := VInt 60.
Definition MEAN_SPEED_MULTIPLIER : value := VInt 18.
Definition MEAN_SPEED_SUBTRAHEND : value := VInt 20.
End Running.

Module SportsWalking.
Definition MIN_IN_HOUR : value := VInt 60.
Definition WEIGHT_MULTIPIER : value := VFloat (literal 35 1000).
Definition SPEED_BY_HEIGHT_MULTIPLIER : value := VFloat (literal 29 1000).
End SportsWalking.

Module Swimming.
Definition MEAN_SPEED_ADDENDUM : value := VFloat (literal 11 10).
Definition MEAN_SPEED_MULTIPLIER : value := VInt 2.
End Swimming.

(** [Training.get_distance], inherited by every subclass. *)
Definition get_distance : M value :=
  (self_ action * self_class LEN_STEP / self_class M_IN_KM)%py.

Definition Training_get_mean_speed : M value :=
  (get_distance / self_ duration)%py.

Definition Swimming_get_mean_speed : M value :=
  distance_m_pool ← (self_try length_pool * self_try count_pool)%py;
  distance_km_pool ← (const distance_m_pool / self_class M_IN_KM)%py;
  (const distance_km_pool / self_ duration)%py.

Definition get_mean_speed : M value :=
  fun self =>
    match class_of self with
    | CSwimming => Swimming_get_mean_speed self
    | _ => Training_get_mean_speed self
    end.

(** The body is [pass]: the call returns [None]. *)
Definition Training_get_spent_calories : M value := mret VNone.

Definition Running_get_spent_calories : M value :=
  mean_speed_transf ← (const Running.MEAN_SPEED_MULTIPLIER
                       * get_mean_speed
                       - const Running.MEAN_SPEED_SUBTRAHEND)%py;
  duration_in_min ← (self_ duration * const Running.MIN_IN_HOUR)%py;
  (const mean_speed_transf * self_ weight / self_class M_IN_KM
   * const duration_in_min)%py.

Definition SportsWalking_get_spent_calories {libm : Libm} : M value :=
  weight_transf ← (const SportsWalking.WEIGHT_MULTIPIER * self_ weight)%py;
  sq_speed_by_h_w ← (get_mean_speed**2
                     // self_try height
                     * const SportsWalking.SPEED_BY_HEIGHT_MULTIPLIER
                     * self_ weight)%py;
  duration_in_min ← (self_ duration * const SportsWalking.MIN_IN_HOUR)%py;
  ((const weight_transf + const sq_speed_by_h_w)
   * const duration_in_min)%py.

Definition Swimming_get_spent_calories : M value :=
  mean_speed_transf ← ((get_mean_speed
                        + const Swimming.MEAN_SPEED_ADDENDUM)
                       * const Swimming.MEAN_SPEED_MULTIPLIER)%py;
  (const mean_speed_transf * self_ weight)%py.

Definition get_spent_calories {libm : Libm} : M value :=
  fun self =>
    match class_of self with
    | CTraining => Training_get_spent_calories self
    | CRunning => Running_get_spent_calories self
    | CSportsWalking => SportsWalking_get_spent_calories self
    | CSwimming => Swimming_get_spent_calories self
    end.

Definition show_training_info {libm : Libm} : M InfoMessage :=
  name ← self_ (fun self => class_name (class_of self));
  d ← self_ duration;
  distance ← get_distance;
  speed ← get_mean_speed;
  calories ← get_spent_calories;
  mret {| training_type := name; msg_duration := d;
          msg_distance := distance; msg_speed := speed;
          msg_calories := calories |}.

Definition ALL_ACTIVITIES : gmap string cls :=
  {[ "SWM" := CSwimming; "RUN" := CRunning; "WLK" := CSportsWalking ]}.

Definition read_package (workout_type : string) (data : list value)
  : result training :=
  match ALL_ACTIVITIES !! workout_type with
  | None => Raise (KeyError ("Незвестный тип тренировки - " +:+ workout_type))
  | Some c => new c data
  end.

End FT.

(** ** homework.py *)

Module HW.

(** Class attributes, as [Class.NAME] finds them. *)
Definition LEN_STEP (c : cls) : value :=
  match c with
  | CSwimming => VFloat (literal 138 100)
  | _ => VFloat (literal 65 100)
  end.
Definition M_IN_KM (c : cls) : value := VInt 1000.

Module Running.
Definition MIN_IN_HOUR : value := VInt 60.
Definition COEFF_CALORIE_1 : value := VInt 18.
Definition COEFF_CALORIE_2 : value := VInt 20.
End Running.

Module SportsWalking.
Definition MIN_IN_HOUR : value := VInt 60.
Definition COEFF_CALORIE_1 : value := VFloat (literal 35 1000).
Definition COEFF_CALORIE_2 : value := VFloat (literal 29 1000).
End SportsWalking.

Module Swimming.
Definition COEFF_CALORIE_1 : value := VFloat (literal 11 10).
Definition COEFF_CALORIE_2 : value := VInt 2.
End Swimming.

Definition Training_get_distance : M value :=
  distance_km ← (self_ action * const (LEN_STEP CTraining)
                 / const (M_IN_KM CTraining))%py;
  mret distance_km.

Definition Swimming_get_distance : M value :=
  distance_km ← (self_ action * const (LEN_STEP CSwimming)
                 / const (M_IN_KM CTraining))%py;
  mret distance_km.

Definition get_distance : M value :=
  fun self =>
    match class_of self with
    | CSwimming => Swimming_get_distance self
    | _ => Training_get_distance self
    end.

Definition Training_get_mean_speed : M value :=
  mean_speed ← (get_distance / self_ duration)%py;
  mret mean_speed.

Definition Swimming_get_mean_speed : M value :=
  mean_speed ← (self_try length_pool
                * self_try count_pool
                / const (M_IN_KM CSwimming)
                / self_ duration)%py;
  mret mean_speed.

Definition get_mean_speed : M value :=
  fun self =>
    match class_of self with
    | CSwimming => Swimming_get_mean_speed self
    | _ => Training_get_mean_speed self
    end.

(** The body is [pass]: the call returns [None]. *)
Definition Training_get_spent_calories : M value := mret VNone.

Definition Running_get_spent_calories : M value :=
  all_calories ← ((const Running.COEFF_CALORIE_1
                   * get_mean_speed
                   - const Running.COEFF_CALORIE_2)
                  * self_ weight
                  / const (M_IN_KM CRunning)
                  * self_ duration
                  * const Running.MIN_IN_HOUR)%py;
  mret all_calories.

Definition SportsWalking_get_spent_calories {libm : Libm} : M value :=
  all_calories ← ((const SportsWalking.COEFF_CALORIE_1 * self_ weight
                   + (get_mean_speed**2 // self_try height)
                     * const SportsWalking.COEFF_CALORIE_2 * self_ weight)
                  * self_ duration
                  * const SportsWalking.MIN_IN_HOUR)%py;
  mret all_calories.

Definition Swimming_get_spent_calories : M value :=
  all_calories ← ((get_mean_speed + const Swimming.COEFF_CALORIE_1)
                  * const Swimming.COEFF_CALORIE_2
                  * self_ weight)%py;
  mret all_calories.

Definition get_spent_calories {libm : Libm} : M value :=
  fun self =>
    match class_of self with
    | CTraining => Training_get_spent_calories self
    | CRunning => Running_get_spent_calories self
    | CSportsWalking => SportsWalking_get_spent_calories self
    | CSwimming => Swimming_get_spent_calories self
    end.

Definition show_training_info {libm : Libm} : M InfoMessage :=
  name ← self_ (fun self => class_name (class_of self));
  d ← self_ duration;
  distance ← get_distance;
  speed ← get_mean_speed;
  calories ← get_spent_calories;
  let info := {| training_type := name; msg_duration := d;
                 msg_distance := distance; msg_speed := speed;
                 msg_calories := calories |} in
  mret info.

(** The local variable [training] is bound only inside the [if]; reading
    it unbound raises [UnboundLocalError]. *)
Definition read_package (workout_type : string) (data : list value)
  : result training :=
  let dict_all_activities : gmap string cls :=
    {[ "SWM" := CSwimming; "RUN" := CRunning; "WLK" := CSportsWalking ]} in
  training ← match dict_all_activities !! workout_type with
             | Some c => t ← new c data; Ok (Some t)
             | None => Ok None
             end;
  match training with
  | Some t => Ok t
  | None => Raise (UnboundLocalError "training")
  end.

End HW.

(** ** Formulas of the specification, in Python arithmetic

    Each formula is written as the specification gives it and evaluated
    with Python's operators, left to right. *)

Module Spec.

(** [count * len_step / 1000] *)
Definition step_distance (count len_step : value) : result value :=
  m ← mul count len_step; truediv m (VInt 1000).

(** [pool_length * lengths / 1000] *)
Definition pool_distance (pool_length lengths : value) : result value :=
  m ← mul pool_length lengths; truediv m (VInt 1000).

(** The last factor of the calorie formulas, [x * duration * 60]. *)
Definition times_hours_60 (x duration : value) : result value :=
  y ← mul x duration; mul y (VInt 60).

(** The same factor with the minutes taken first,
    [x * (duration * 60)]. *)
Definition times_minutes (x duration : value) : result value :=
  m ← mul duration (VInt 60); mul x m.

(** [(18 * speed - 20) * weight / 1000] *)
Definition running_rate (speed weight : value) : result value :=
  x ← mul (VInt 18) speed; x ← sub x (VInt 20);
  x ← mul x weight; truediv x (VInt 1000).

(** [0.035 * weight + floor(speed^2 / height) * 0.029 * weight] *)
Definition walking_rate {libm : Libm} (speed weight height : value)
  : result value :=
  wt ← mul (VFloat (literal 35 1000)) weight;
  sq ← square speed; q ← floordiv sq height;
  x ← mul q (VFloat (literal 29 1000)); x ← mul x weight;
  add wt x.

(** [(speed + 1.1) * 2 * weight] *)
Definition swimming_calories (speed weight : value) : result value :=
  x ← add speed (VFloat (literal 11 10)); x ← mul x (VInt 2);
  mul x weight.

(** The distance that the mean speed divides by the duration: pool-based
    for swimming, step-based otherwise. *)
Definition covered_distance (self : training) : result value :=
  match self with
  | Swimming _ _ _ l c => pool_distance l c
  | _ => step_distance (action self) (VFloat (literal 65 100))
  end.

(** [x] is [target] up to [tol]. *)
Definition close_to (x target tol : float) : bool :=
  SFleb (fsub target tol) x && SFleb x (fadd target tol).

End Spec.

(** ** Sample packages of the two modules *)

Definition run_sample : training := Running (VInt 15000) (VInt 1) (VInt 75).
Definition wlk_sample : training :=
  SportsWalking (VInt 9000) (VInt 1) (VInt 75) (VInt 180).
Definition swm_sample : training :=
  Swimming (VInt 720) (VInt 1) (VInt 80) (VInt 25) (VInt 40).

(** Walks whose squared speed is not below the height: the sample walk
    with a height of [10], a walk of [5000] steps with the height in
    metres, and two walks of [90000] steps in three hours. *)
Definition wlk_height_10 : training :=
  SportsWalking (VInt 9000) (VInt 1) (VInt 75) (VInt 10).
Definition wlk_height_1_6 : training :=
  SportsWalking (VInt 5000) (VInt 1) (VInt 75) (VFloat (literal 16 10)).
Definition wlk_three_hours : training :=
  SportsWalking (VInt 90000) (VInt 3) (VInt 75) (VInt 180).
Definition wlk_three_hours_100 : training :=
  SportsWalking (VInt 90000) (VInt 3) (VInt 75) (VInt 100).

(** ** Auxiliary notions *)

(** A method is read-only when it hands back the receiver unchanged. *)
Definition read_only {A} (m : M A) : Prop :=
  forall self, after m self = self.

(** Both results are floats and the first is smaller ([<] of Python). *)
Definition distance_lt (r1 r2 : result value) : Prop :=
  exists x y, r1 = Ok (VFloat x) /\ r2 = Ok (VFloat y) /\ SFltb x y = true.

(** [located mrs num W]: the record [mrs] of a shifted mantissa describes
    the rational [num / W]: the mantissa is its integer part and the round
    and sticky bits place its fractional part against one half. *)
Definition located (mrs : shr_record) (num W : Z) : Prop :=
  let m := shr_m mrs in
  0 <= m /\ m * W <= num < (m + 1) * W /\
  match shr_r mrs, shr_s mrs with
  | false, false => num = m * W
  | false, true => m * W < num /\ 2 * num < (2 * m + 1) * W
  | true, false => 2 * num = (2 * m + 1) * W
  | true, true => (2 * m + 1) * W < 2 * num
  end.

(** A positive float with a full 53-digit mantissa. *)
Definition normal (x : float) (m : positive) (e : Z) : Prop :=
  x = S754_finite false m e /\ Zpos (digits2_pos m) = 53.

(** The constants of [Training.get_distance] as floats, and the float it
    computes from an integer count: [count * 0.65 / 1000]. *)
Definition len_step : float := literal 65 100.
Definition m_in_km : float := float_of_Z 1000.
Definition step_km (count : Z) : float :=
  fdiv (fmul (float_of_Z count) len_step) m_in_km.

(** ** Messages and the program

    [InfoMessage.get_message], [main] and the loop of the script are the
    same text in both modules. *)

(** The nearest integer to [N / D], ties to the even one. *)
Definition round_half_even (N D : Z) : Z :=
  let q := N / D in
  match 2 * (N mod D) ?= D with
  | Lt => q
  | Gt => q + 1
  | Eq => if Z.even q then q else q + 1
  end.

(** The number of thousandths in [m * 2^e], correctly rounded. *)
Definition thousandths (m : positive) (e : Z) : Z :=
  if 0 <=? e then 1000 * Zpos m * 2 ^ e
  else round_half_even (1000 * Zpos m) (2 ^ (- e)).

Definition digit (n : Z) : string := pretty (Z.to_N n).

(** [n] thousandths written with three digits after the point. *)
Definition fixed3 (n : Z) : string :=
  pretty (Z.to_N (n / 1000)) +:+ "." +:+ digit (n / 100 mod 10)
  +:+ digit (n / 10 mod 10) +:+ digit (n mod 10).

(** The sign, written only when it is negative. *)
Definition sign_text (s : bool) : string := if s then "-" else EmptyString.

(** [format(x, '.3f')] for a float: the decimal expansion of the exact
    value, rounded to three places. *)
Definition format_float_3f (x : float) : string :=
  match x with
  | S754_nan => "nan"
  | S754_infinity s => sign_text s +:+ "inf"
  | S754_zero s => sign_text s +:+ "0.000"
  | S754_finite s m e => sign_text s +:+ fixed3 (thousandths m e)
  end.

(** [f'{v:.3f}']: an [int] is converted to a float first; [None] does not
    accept the format. *)
Definition format_3f (v : value) : result string :=
  match v with
  | VNone => Raise TypeError
  | VInt n => x ← long_as_double n; Ok (format_float_3f x)
  | VFloat x => Ok (format_float_3f x)
  end.

Definition get_message (self : InfoMessage) : result string :=
  d ← format_3f (msg_duration self);
  distance ← format_3f (msg_distance self);
  speed ← format_3f (msg_speed self);
  calories ← format_3f (msg_calories self);
  Ok ("Тип тренировки: " +:+ training_type self +:+ "; "
      +:+ "Длительность: " +:+ d +:+ " ч.; "
      +:+ "Дистанция: " +:+ distance +:+ " км; "
      +:+ "Ср. скорость: " +:+ speed +:+ " км/ч; "
      +:+ "Потрачено ккал: " +:+ calories +:+ ".").

(** The program prints lines; what it has printed stays printed when an
    exception ends it. *)
Definition IO (A : Type) : Type := list string -> result A * list string.

#[export] Instance IO_ret : MRet IO := fun _ a out => (Ok a, out).
#[export] Instance IO_bind : MBind IO := fun _ _ f m out =>
  match m out with
  | (Ok a, out') => f a out'
  | (Raise e, out') => (Raise e, out')
  end.

Definition print (s : string) : IO unit := fun out => (Ok tt, out ++ [s]).

Definition io_lift {A} (r : result A) : IO A := fun out => (r, out).

Section Program.

Variable read_package : string -> list value -> result training.
Variable show_training_info : M InfoMessage.

Definition main (t : training) : IO unit :=
  info ← io_lift (call show_training_info t);
  s ← io_lift (get_message info);
  print s.



End Program.



(** The number of arguments of [__init__], [self] apart, and the fields
    of a record in the order of these arguments. *)
Definition arity (c : cls) : nat :=
  match c with
  | CTraining | CRunning => 3
  | CSportsWalking => 4
  | CSwimming => 5
  end.

Definition fields (self : training) : list value :=
  match self with
  | Training a d w | Running a d w => [a; d; w]
  | SportsWalking a d w h => [a; d; w; h]
  | Swimming a d w l c => [a; d; w; l; c]
  end.

(** The stroke length of [Swimming] as a float, and the float that
    [get_distance] computes from an integer stroke count:
    [count * 1.38 / 1000]. *)
Definition len_stroke : float := literal 138 100.
Definition stroke_km (count : Z) : float :=
  fdiv (fmul (float_of_Z count) len_stroke) m_in_km.

(** ** Proof tools *)

Arguments mul : simpl never.
Arguments add : simpl never.
Arguments sub : simpl never.
Arguments truediv : simpl never.
Arguments floordiv : simpl never.
Arguments square : simpl never.
Arguments literal : simpl never.

(** Unfolds a method call down to the arithmetic it performs. *)
Ltac run_method :=
  unfold call, after;
  cbv [FT.get_distance FT.get_mean_speed FT.Training_get_mean_speed
       FT.Swimming_get_mean_speed FT.get_spent_calories
       FT.Training_get_spent_calories FT.Running_get_spent_calories
       FT.SportsWalking_get_spent_calories FT.Swimming_get_spent_calories
       FT.show_training_info FT.LEN_STEP FT.M_IN_KM
       FT.Running.MIN_IN_HOUR FT.Running.MEAN_SPEED_MULTIPLIER
       FT.Running.MEAN_SPEED_SUBTRAHEND FT.SportsWalking.MIN_IN_HOUR
       FT.SportsWalking.WEIGHT_MULTIPIER
       FT.SportsWalking.SPEED_BY_HEIGHT_MULTIPLIER
       FT.Swimming.MEAN_SPEED_ADDENDUM FT.Swimming.MEAN_SPEED_MULTIPLIER
       HW.get_distance HW.Training_get_distance HW.Swimming_get_distance
       HW.get_mean_speed HW.Training_get_mean_speed
       HW.Swimming_get_mean_speed HW.get_spent_calories
       HW.Training_get_spent_calories HW.Running_get_spent_calories
       HW.SportsWalking_get_spent_calories HW.Swimming_get_spent_calories
       HW.show_training_info HW.LEN_STEP HW.M_IN_KM
       HW.Running.MIN_IN_HOUR HW.Running.COEFF_CALORIE_1
       HW.Running.COEFF_CALORIE_2 HW.SportsWalking.MIN_IN_HOUR
       HW.SportsWalking.COEFF_CALORIE_1 HW.SportsWalking.COEFF_CALORIE_2
       HW.Swimming.COEFF_CALORIE_1 HW.Swimming.COEFF_CALORIE_2
       binop self_ self_try self_class lift const class_of
       action duration weight height length_pool count_pool
       mbind mret M_bind M_ret result_bind result_ret
       Spec.step_distance Spec.pool_distance Spec.times_hours_60
       Spec.times_minutes Spec.running_rate Spec.walking_rate
       Spec.swimming_calories Spec.covered_distance];
  cbn.

(** Splits on every operation whose outcome decides the control flow. *)
Ltac case_results :=
  repeat match goal with
    | |- Ok _ = Ok _ -> _ => intros ?; simplify_eq
    | |- Raise _ = Ok _ -> _ => intros ?; discriminate
    | |- context [match ?r with Ok _ => _ | Raise _ => _ end] =>
        lazymatch r with
        | mul _ _ => idtac
        | add _ _ => idtac
        | sub _ _ => idtac
        | truediv _ _ => idtac
        | floordiv _ _ => idtac
        | square _ => idtac
        end;
        destruct r eqn:?; cbn
    end.

(** ** The operators at work *)

(** [7.0 // 2], [-7.0 // 2] and [1.0 // 0.1]: the floor of the exact
    quotient, which for the last one is [9.0] although [1.0 / 0.1] rounds
    to [10.0]. *)
Example floordiv_samples :
  floordiv (VFloat (float_of_Z 7)) (VInt 2) = Ok (VFloat (float_of_Z 3))
  /\ floordiv (VFloat (float_of_Z (-7))) (VInt 2) = Ok (VFloat (float_of_Z (-4)))
  /\ floordiv (VFloat fone) (VFloat (literal 1 10)) = Ok (VFloat (float_of_Z 9))
  /\ truediv (VFloat fone) (VFloat (literal 1 10)) = Ok (VFloat (float_of_Z 10))
  /\ floordiv (VInt (-7)) (VInt 2) = Ok (VInt (-4)).
Proof. vm_compute. repeat split. Qed.

(** [10.5625 // 1.6]: the remainder is [0.9624999999999995] and the
    quotient of what is left by [1.6] rounds to [6.000000000000001], which
    the floor brings down to [6.0]. *)
Example floordiv_floor_sample :
  fmod (literal 105625 10000) (literal 16 10)
    = S754_finite false 8669429282688200 (-53)
  /\ fdiv (fsub (literal 105625 10000)
                (S754_finite false 8669429282688200 (-53)))
          (literal 16 10)
     = S754_finite false 6755399441055745 (-50)
  /\ ffloor (S754_finite false 6755399441055745 (-50)) = float_of_Z 6
  /\ floordiv (VFloat (literal 105625 10000)) (VFloat (literal 16 10))
     = Ok (VFloat (float_of_Z 6)).
Proof. vm_compute. repeat split. Qed.

(** Division by zero and integers out of the range of a float raise. *)
Example raising_samples :
  truediv (VInt 1) (VInt 0) = Raise ZeroDivisionError
  /\ truediv (VFloat fone) (VFloat (S754_zero true)) = Raise ZeroDivisionError
  /\ floordiv (VFloat fone) (VInt 0) = Raise ZeroDivisionError
  /\ mul (VInt (10 ^ 400)) (VFloat (literal 65 100)) = Raise OverflowError
  /\ truediv (VInt (10 ^ 400)) (VInt 3) = Raise OverflowError
  /\ add VNone (VInt 1) = Raise TypeError.
Proof. vm_compute. repeat split. Qed.

(** [** 2]: the values that Python answers itself, whatever the C
    library; and, with a correctly rounded [pow], [1.5 ** 2 = 2.25] and
    the overflow of [1e200 ** 2]. *)
Example square_samples {libm : Libm} :
  square (VFloat (float_of_Z (-1))) = Ok (VFloat fone)
  /\ square (VFloat (S754_infinity true)) = Ok (VFloat (S754_infinity false))
  /\ square (VFloat (S754_zero true)) = Ok (VFloat fzero)
  /\ square (VFloat S754_nan) = Ok (VFloat S754_nan)
  /\ square (VInt (-3)) = Ok (VInt 9)
  /\ square VNone = Raise TypeError
  /\ square (libm := crlibm) (VFloat (literal (-15) 10))
     = Ok (VFloat (literal 225 100))
  /\ square (libm := crlibm) (VFloat (float_of_Z (10 ^ 200)))
     = Raise OverflowError.
Proof. vm_compute. repeat split. Qed.

(** The literals of the two modules, as binary64 numbers. *)
Example literal_samples :
  literal 65 100 = S754_finite false 5854679515581645 (-53)
  /\ literal 138 100 = S754_finite false 6214967485771284 (-52)
  /\ literal 35 1000 = S754_finite false 5044031582654956 (-57)
  /\ literal 29 1000 = S754_finite false 8358680908399641 (-58)
  /\ literal 11 10 = S754_finite false 4953959590107546 (-52).
Proof. vm_compute. repeat split. Qed.

(** ** Facts about the operators *)

Lemma truediv_by_zero (x d : value) :
  is_zero_value d = true -> is_ok (truediv x d) = false.
Proof.
  destruct d as [|n|y]; [done| |]; cbn; intros Hz.
  - apply Z.eqb_eq in Hz as ->.
    by destruct x as [|a|a].
  - destruct y; try done.
    destruct x as [|a|a]; try done; unfold truediv, as_doubles; cbn.
    by destruct (long_as_double a).
Qed.

Lemma truediv_float_by_zero (x : float) (d : value) :
  is_zero_value d = true -> truediv (VFloat x) d = Raise ZeroDivisionError.
Proof.
  destruct d as [|n|y]; [done| |]; cbn; intros Hz.
  - by apply Z.eqb_eq in Hz as ->.
  - by destruct y.
Qed.

Lemma truediv_is_float (x d v : value) :
  truediv x d = Ok v -> exists y, v = VFloat y.
Proof.
  unfold truediv, long_true_divide, as_doubles.
  cbv [mbind mret result_bind result_ret].
  destruct x as [|a|a], d as [|b|b]; cbn; try done;
    repeat (case_match; cbn; try done); intros ?; simplify_eq; eauto.
Qed.

(** Whatever the library, [x ** 2] is what [float_pow] makes of one of
    three floats: the correctly rounded square of [|x|] and its two
    neighbours. *)
Lemma square_float {libm : Libm} (x : float) :
  exists r, adjacent (fmul (SFabs x) (SFabs x)) r
    /\ square (VFloat x) = (y ← float_pow2 (fun _ => r) x; Ok (VFloat y)).
Proof.
  exists (pow2 (SFabs x)). split; [apply pow2_adjacent|].
  by destruct x.
Qed.

(** Replaces the square of a given float by the three results it can
    have. *)
Ltac pow_cases :=
  match goal with
  | |- context [square (VFloat ?x)] =>
      let r := fresh "r" in
      let Hr := fresh "Hr" in
      let E := fresh "E" in
      destruct (square_float x) as (r & Hr & E);
      rewrite E; clear E;
      destruct Hr as [-> | [-> | ->]]
  end.

(** Evaluates a method call on a given record, operation by operation;
    a square is split into the results it can have. *)
Ltac eval_operation :=
  match goal with
  | |- context [match ?r with Ok _ => _ | Raise _ => _ end] =>
      lazymatch r with
      | context [square _] => fail
      | _ => idtac
      end;
      let v := eval vm_compute in r in
      replace r with v by (vm_compute; reflexivity);
      cbn
  end.

Ltac eval_call :=
  run_method;
  repeat first [eval_operation | pow_cases; cbn];
  vm_compute; repeat split.

Lemma mul_sixty (d : value) :
  is_number d = true -> is_ok (mul d (VInt 60)) = true.
Proof. by destruct d. Qed.

Lemma truediv_number (x d v : value) :
  truediv x d = Ok v -> is_number d = true.
Proof.
  destruct d; [|done..].
  unfold truediv, as_doubles. destruct x; cbn; try done.
Qed.

(** ** Both modules compute the same distance and mean speed *)

Lemma get_distance_agree (self : training) :
  call FT.get_distance self = call HW.get_distance self.
Proof. destruct self; run_method; case_results; reflexivity. Qed.

Lemma get_mean_speed_agree (self : training) :
  call FT.get_mean_speed self = call HW.get_mean_speed self.
Proof. destruct self; run_method; case_results; reflexivity. Qed.

(** A record that has a mean speed has a numeric duration. *)
Lemma mean_speed_duration (self : training) (v : value) :
  call FT.get_mean_speed self = Ok v -> is_number (duration self) = true.
Proof.
  destruct self; run_method; case_results; cbn; intros H;
    try discriminate; eauto using truediv_number.
Qed.

(** ** Swimming distance *)

(** C1, as the code has it.  For every swimming record, in both modules,
    [get_distance] is the stroke-based distance [action * 1.38 / 1000]:
    the generic step formula with the stroke length of [Swimming].  The
    pool length and the number of lengths do not enter the distance; they
    are used by [get_mean_speed] only. *)
Theorem swimming_distance_is_stroke_based (a d w l c : value) :
  call FT.get_distance (Swimming a d w l c)
    = Spec.step_distance a (VFloat (literal 138 100))
  /\ call HW.get_distance (Swimming a d w l c)
    = Spec.step_distance a (VFloat (literal 138 100))
  /\ call FT.get_mean_speed (Swimming a d w l c)
    = (x ← Spec.pool_distance l c; truediv x d).
Proof.
  repeat split; run_method; case_results; reflexivity.
Qed.

(** C1, refuted as stated.  For the sample package
    [('SWM', [720, 1, 80, 25, 40])] the pool-based formula gives
    [25 * 40 / 1000 = 1.0], while [get_distance] returns
    [720 * 1.38 / 1000 = 0.9935999999999999] in both modules. *)
Lemma swimming_distance_not_pool_based :
  call FT.get_distance swm_sample
    = Ok (VFloat (S754_finite false 8949553179510649 (-53)))
  /\ call HW.get_distance swm_sample
    = Ok (VFloat (S754_finite false 8949553179510649 (-53)))
  /\ Spec.pool_distance (VInt 25) (VInt 40) = Ok (VFloat fone)
  /\ call FT.get_distance swm_sample <> Spec.pool_distance (VInt 25) (VInt 40)
  /\ call HW.get_distance swm_sample <> Spec.pool_distance (VInt 25) (VInt 40).
Proof.
  vm_compute. repeat split; intros [=].
Qed.

(** ** Calories of the base class *)

(** C2, as the code has it.  The body of [Training.get_spent_calories] is
    [pass]: on an instance of the base class the call does not raise, it
    returns [None], in both modules. *)
Theorem base_calories_is_none {libm : Libm} (a d w : value) :
  call FT.get_spent_calories (Training a d w) = Ok VNone
  /\ call HW.get_spent_calories (Training a d w) = Ok VNone.
Proof. split; reflexivity. Qed.

(** C2, refuted as stated: the call on a base record does not fail. *)
Lemma base_calories_does_not_fail :
  ~ (exists (libm : Libm) e,
       call FT.get_spent_calories (Training (VInt 9000) (VInt 1) (VInt 75))
       = Raise e)
  /\ ~ (exists (libm : Libm) e,
       call HW.get_spent_calories (Training (VInt 9000) (VInt 1) (VInt 75))
       = Raise e).
Proof. split; intros (libm & e & [=]). Qed.

(** ** Dispatch on an unknown code *)

Lemma unknown_code_lookup (code : string) :
  code <> "SWM" -> code <> "RUN" -> code <> "WLK" ->
  FT.ALL_ACTIVITIES !! code = None.
Proof.
  intros ? ? ?. unfold FT.ALL_ACTIVITIES.
  rewrite !lookup_insert_ne; [|done..].
  by apply lookup_singleton_ne.
Qed.

(** C3.  For a code outside SWM, RUN and WLK, [fitness_tracker.py] raises
    [KeyError] with a message that ends in the code, whatever the reading
    list; [homework.py] skips the assignment of its local variable and
    fails at [return training] with [UnboundLocalError], which does not
    name the code.  Neither constructs a record. *)
Theorem read_package_unknown_code (code : string) (data : list value) :
  code <> "SWM" -> code <> "RUN" -> code <> "WLK" ->
  FT.read_package code data
    = Raise (KeyError ("Незвестный тип тренировки - " +:+ code))
  /\ HW.read_package code data = Raise (UnboundLocalError "training").
Proof.
  intros H1 H2 H3.
  pose proof (unknown_code_lookup code H1 H2 H3) as Hl.
  split.
  - unfold FT.read_package. by rewrite Hl.
  - unfold HW.read_package. cbv zeta.
    unfold FT.ALL_ACTIVITIES in Hl. by rewrite Hl.
Qed.

Lemma read_package_unknown_code_witness :
  ("XYZ" <> "SWM" /\ "XYZ" <> "RUN" /\ "XYZ" <> "WLK")
  /\ FT.read_package "XYZ" [VInt 15000; VInt 1; VInt 75]
     = Raise (KeyError "Незвестный тип тренировки - XYZ")
  /\ HW.read_package "XYZ" [VInt 15000; VInt 1; VInt 75]
     = Raise (UnboundLocalError "training").
Proof.
  assert (H : "XYZ" <> "SWM" /\ "XYZ" <> "RUN" /\ "XYZ" <> "WLK")
    by (repeat split; discriminate).
  split; [exact H|].
  destruct H as (H1 & H2 & H3).
  exact (read_package_unknown_code "XYZ" [VInt 15000; VInt 1; VInt 75]
           H1 H2 H3).
Defined.

(** ** Calorie formulas *)

(** Brings a goal about the calories of a record whose mean speed is
    known down to the arithmetic, with the minutes already computed. *)
Ltac with_speed Hv :=
  let Hd := fresh "Hd" in
  let Hm := fresh "Hm" in
  pose proof (mean_speed_duration _ _ Hv) as Hd; cbn in Hd;
  apply mul_sixty in Hd;
  match type of Hd with
  | is_ok ?r = true => destruct r eqn:Hm; [clear Hd|discriminate Hd]
  end;
  revert Hv; run_method; intros Hv.

(** With mean speed [v], the calories of a walk are the walking rate
    scaled by the minutes, in the order of each module. *)
Lemma walking_calories_by_rate {libm : Libm} (a d w h v : value) :
  call FT.get_mean_speed (SportsWalking a d w h) = Ok v ->
  call FT.get_spent_calories (SportsWalking a d w h)
    = (x ← Spec.walking_rate v w h; Spec.times_minutes x d)
  /\ call HW.get_spent_calories (SportsWalking a d w h)
    = (x ← Spec.walking_rate v w h; Spec.times_hours_60 x d).
Proof.
  intros Hv. with_speed Hv.
  split; revert Hv; case_results; congruence.
Qed.

(** C4, as the code has it.  For every sports-walking record with mean
    speed [v], the spent calories are
    [(0.035 * weight + (v**2 // height) * 0.029 * weight)] scaled by the
    duration in minutes, every operation being a binary64 operation, the
    square being the C library's: the floor division sits at the quotient
    of the squared speed by the height and nothing else is rounded to an
    integer.  [homework.py] multiplies by [duration] and then by [60];
    [fitness_tracker.py] takes the minutes [duration * 60] first.
    Whatever the library: for the sample package
    [('WLK', [9000, 1, 75, 180])] the mean speed is [5.85], the floor
    quotient is [0.0] and the calories are [157.50000000000003] in both
    modules; with a height of [10] the floor quotient of [34.2225] by the
    height is [3.0] and the calories are [549.0]; for [5000] steps and a
    height of [1.6] the floor quotient of [10.5625] by the height is
    [6.0] and the calories are [940.5]. *)
Theorem walking_calories_formula {libm : Libm} :
  (forall a d w h v : value,
     call FT.get_mean_speed (SportsWalking a d w h) = Ok v ->
     call FT.get_spent_calories (SportsWalking a d w h)
       = (x ← Spec.walking_rate v w h; Spec.times_minutes x d)
     /\ call HW.get_spent_calories (SportsWalking a d w h)
       = (x ← Spec.walking_rate v w h; Spec.times_hours_60 x d))
  /\ call FT.get_mean_speed wlk_sample = Ok (VFloat (literal 585 100))
  /\ (sq ← square (VFloat (literal 585 100)); floordiv sq (VInt 180))
     = Ok (VFloat fzero)
  /\ call FT.get_spent_calories wlk_sample
     = (x ← Spec.walking_rate (VFloat (literal 585 100)) (VInt 75) (VInt 180);
        Spec.times_hours_60 x (VInt 1))
  /\ call HW.get_spent_calories wlk_sample
     = (x ← Spec.walking_rate (VFloat (literal 585 100)) (VInt 75) (VInt 180);
        Spec.times_hours_60 x (VInt 1))
  /\ call FT.get_spent_calories wlk_sample
     = Ok (VFloat (S754_finite false 5541538603991041 (-45)))
  /\ call HW.get_spent_calories wlk_sample
     = Ok (VFloat (S754_finite false 5541538603991041 (-45)))
  /\ (sq ← square (VFloat (literal 585 100)); floordiv sq (VInt 10))
     = Ok (VFloat (float_of_Z 3))
  /\ call FT.get_spent_calories wlk_height_10 = Ok (VFloat (float_of_Z 549))
  /\ call HW.get_spent_calories wlk_height_10 = Ok (VFloat (float_of_Z 549))
  /\ call FT.get_mean_speed wlk_height_1_6 = Ok (VFloat (literal 325 100))
  /\ (sq ← square (VFloat (literal 325 100));
      floordiv sq (VFloat (literal 16 10)))
     = Ok (VFloat (float_of_Z 6))
  /\ call FT.get_spent_calories wlk_height_1_6
     = Ok (VFloat (literal 9405 10))
  /\ call HW.get_spent_calories wlk_height_1_6
     = Ok (VFloat (literal 9405 10)).
Proof.
  split; [exact walking_calories_by_rate|].
  assert (Hv : call FT.get_mean_speed wlk_sample
               = Ok (VFloat (literal 585 100))) by (vm_compute; reflexivity).
  destruct (walking_calories_by_rate _ _ _ _ _ Hv) as [HF HH].
  assert (HFv : call FT.get_spent_calories wlk_sample
                = Ok (VFloat (S754_finite false 5541538603991041 (-45))))
    by eval_call.
  assert (HHv : call HW.get_spent_calories wlk_sample
                = Ok (VFloat (S754_finite false 5541538603991041 (-45))))
    by eval_call.
  split; [exact Hv|].
  split; [pow_cases; vm_compute; reflexivity|].
  split; [rewrite HFv, <- HHv; exact HH|].
  split; [exact HH|].
  split; [exact HFv|].
  split; [exact HHv|].
  split; [pow_cases; vm_compute; reflexivity|].
  split; [eval_call|].
  split; [eval_call|].
  split; [vm_compute; reflexivity|].
  split; [pow_cases; vm_compute; reflexivity|].
  split; eval_call.
Qed.

(** With a correctly rounded [pow]: [90000] steps in three hours at a
    height of [180] give the speed [19.5], the square [380.25], the floor
    quotient [2.0] and the calories [1255.5000000000002] in both
    modules. *)
Lemma walking_calories_formula_witness :
  call FT.get_mean_speed wlk_three_hours = Ok (VFloat (literal 195 10))
  /\ (call (FT.get_spent_calories (libm := crlibm)) wlk_three_hours
      = (x ← Spec.walking_rate (libm := crlibm)
               (VFloat (literal 195 10)) (VInt 75) (VInt 180);
         Spec.times_minutes x (VInt 3))
      /\ call (HW.get_spent_calories (libm := crlibm)) wlk_three_hours
      = (x ← Spec.walking_rate (libm := crlibm)
               (VFloat (literal 195 10)) (VInt 75) (VInt 180);
         Spec.times_hours_60 x (VInt 3)))
  /\ square (libm := crlibm) (VFloat (literal 195 10))
     = Ok (VFloat (literal 38025 100))
  /\ floordiv (VFloat (literal 38025 100)) (VInt 180)
     = Ok (VFloat (float_of_Z 2))
  /\ call (FT.get_spent_calories (libm := crlibm)) wlk_three_hours
     = Ok (VFloat (S754_finite false 5521747394691073 (-42)))
  /\ call (HW.get_spent_calories (libm := crlibm)) wlk_three_hours
     = Ok (VFloat (S754_finite false 5521747394691073 (-42))).
Proof.
  assert (H : call FT.get_mean_speed wlk_three_hours
              = Ok (VFloat (literal 195 10))) by (vm_compute; reflexivity).
  split; [exact H|].
  split;
    [exact (proj1 (walking_calories_formula (libm := crlibm)) _ _ _ _ _ H)|].
  vm_compute. repeat split.
Defined.

(** C4, refuted as stated.  [fitness_tracker.py] does not multiply by the
    duration and then by [60]: it multiplies by [duration * 60], and the
    two roundings differ.  Whatever the library, for [90000] steps in
    three hours at a height of [100] (speed [19.5], floor quotient [3.0])
    [fitness_tracker.py] returns [1647.0] where the formula of the claim,
    and [homework.py], give [1647.0000000000002]; for the sample walk
    taken over three hours (speed [1.95], floor quotient [0.0]) it returns
    [472.50000000000006] where the formula gives [472.5000000000001]. *)
Lemma walking_calories_not_duration_then_60 :
  (forall libm : Libm,
     call FT.get_mean_speed wlk_three_hours_100 = Ok (VFloat (literal 195 10))
     /\ call FT.get_spent_calories wlk_three_hours_100
        = Ok (VFloat (float_of_Z 1647))
     /\ (x ← Spec.walking_rate (VFloat (literal 195 10)) (VInt 75) (VInt 100);
         Spec.times_hours_60 x (VInt 3))
        = Ok (VFloat (S754_finite false 7243582603788289 (-42)))
     /\ call HW.get_spent_calories wlk_three_hours_100
        = Ok (VFloat (S754_finite false 7243582603788289 (-42)))
     /\ call FT.get_spent_calories wlk_three_hours_100
        <> (x ← Spec.walking_rate (VFloat (literal 195 10)) (VInt 75)
                  (VInt 100);
            Spec.times_hours_60 x (VInt 3)))
  /\ (forall libm : Libm,
     call FT.get_mean_speed
       (SportsWalking (VInt 9000) (VInt 3) (VInt 75) (VInt 180))
     = Ok (VFloat (literal 195 100))
     /\ call FT.get_spent_calories
          (SportsWalking (VInt 9000) (VInt 3) (VInt 75) (VInt 180))
        = Ok (VFloat (S754_finite false 8312307905986561 (-44)))
     /\ (x ← Spec.walking_rate (VFloat (literal 195 100)) (VInt 75)
               (VInt 180);
         Spec.times_hours_60 x (VInt 3))
        = Ok (VFloat (S754_finite false 8312307905986562 (-44)))
     /\ call HW.get_spent_calories
          (SportsWalking (VInt 9000) (VInt 3) (VInt 75) (VInt 180))
        = Ok (VFloat (S754_finite false 8312307905986562 (-44)))).
Proof.
  split; intros libm.
  - assert (HF : call FT.get_spent_calories wlk_three_hours_100
                 = Ok (VFloat (float_of_Z 1647))) by eval_call.
    assert (HS : (x ← Spec.walking_rate (VFloat (literal 195 10)) (VInt 75)
                        (VInt 100);
                  Spec.times_hours_60 x (VInt 3))
                 = Ok (VFloat (S754_finite false 7243582603788289 (-42))))
      by eval_call.
    split; [vm_compute; reflexivity|].
    split; [exact HF|]. split; [exact HS|].
    split; [eval_call|].
    rewrite HF, HS. vm_compute. intros [=].
  - split; [vm_compute; reflexivity|].
    split; [eval_call|]. split; eval_call.
Qed.

(** C5, as the code has it.  For every running record with mean speed
    [v], the spent calories are [(18 * v - 20) * weight / 1000] scaled by
    the duration in minutes ([fitness_tracker.py] takes [duration * 60]
    first, [homework.py] multiplies by [duration] and then by [60]).  For
    the sample package [('RUN', [15000, 1, 75])] the distance is [9.75],
    the mean speed is [9.75] and the calories are
    [(18 * 9.75 - 20) * 75 / 1000 * 60 = 699.75]. *)
Theorem running_calories_formula {libm : Libm} :
  (forall a d w v : value,
     call FT.get_mean_speed (Running a d w) = Ok v ->
     call FT.get_spent_calories (Running a d w)
       = (x ← Spec.running_rate v w; Spec.times_minutes x d)
     /\ call HW.get_spent_calories (Running a d w)
       = (x ← Spec.running_rate v w; Spec.times_hours_60 x d))
  /\ call FT.get_distance run_sample = Ok (VFloat (literal 975 100))
  /\ call FT.get_mean_speed run_sample = Ok (VFloat (literal 975 100))
  /\ (x ← Spec.running_rate (VFloat (literal 975 100)) (VInt 75);
      Spec.times_hours_60 x (VInt 1)) = Ok (VFloat (literal 69975 100))
  /\ call FT.get_spent_calories run_sample = Ok (VFloat (literal 69975 100))
  /\ call HW.get_spent_calories run_sample = Ok (VFloat (literal 69975 100)).
Proof.
  split.
  - intros a d w v Hv. with_speed Hv.
    split; revert Hv; case_results; congruence.
  - vm_compute. repeat split.
Qed.

Lemma running_calories_formula_witness :
  call FT.get_mean_speed (Running (VInt 15000) (VInt 3) (VInt 75))
    = Ok (VFloat (literal 325 100))
  /\ call (FT.get_spent_calories (libm := crlibm))
       (Running (VInt 15000) (VInt 3) (VInt 75))
     = (x ← Spec.running_rate (VFloat (literal 325 100)) (VInt 75);
        Spec.times_minutes x (VInt 3))
  /\ call (HW.get_spent_calories (libm := crlibm))
       (Running (VInt 15000) (VInt 3) (VInt 75))
     = (x ← Spec.running_rate (VFloat (literal 325 100)) (VInt 75);
        Spec.times_hours_60 x (VInt 3)).
Proof.
  assert (H : call FT.get_mean_speed (Running (VInt 15000) (VInt 3) (VInt 75))
              = Ok (VFloat (literal 325 100))) by (vm_compute; reflexivity).
  split; [exact H|].
  exact (proj1 (running_calories_formula (libm := crlibm)) _ _ _ _ H).
Defined.

(** C5, refuted as stated.  For the sample package the calories are
    [699.75] in both modules, which is not within [1.0] of [719.55]. *)
Lemma running_sample_calories_not_719_55 :
  ~ (exists (libm : Libm) x,
       call FT.get_spent_calories run_sample = Ok (VFloat x)
       /\ Spec.close_to x (literal 71955 100) fone = true)
  /\ ~ (exists (libm : Libm) x,
       call HW.get_spent_calories run_sample = Ok (VFloat x)
       /\ Spec.close_to x (literal 71955 100) fone = true).
Proof.
  split; intros (libm & x & Hx & Hc); vm_compute in Hx; simplify_eq;
    vm_compute in Hc; discriminate.
Qed.

(** C6.  For every swimming record the mean speed is
    [length_pool * count_pool / 1000 / duration], and with mean speed [v]
    the spent calories are [(v + 1.1) * 2 * weight], in both modules.  For
    the sample package [('SWM', [720, 1, 80, 25, 40])] the mean speed is
    [1.0] and the calories are [336.0]. *)
Theorem swimming_calories_formula {libm : Libm} :
  (forall a d w l c v : value,
     call FT.get_mean_speed (Swimming a d w l c) = Ok v ->
     call FT.get_spent_calories (Swimming a d w l c)
       = Spec.swimming_calories v w
     /\ call HW.get_spent_calories (Swimming a d w l c)
       = Spec.swimming_calories v w)
  /\ (forall a d w l c : value,
     call FT.get_mean_speed (Swimming a d w l c)
       = (x ← Spec.pool_distance l c; truediv x d)
     /\ call HW.get_mean_speed (Swimming a d w l c)
       = (x ← Spec.pool_distance l c; truediv x d))
  /\ call FT.get_mean_speed swm_sample = Ok (VFloat fone)
  /\ call HW.get_mean_speed swm_sample = Ok (VFloat fone)
  /\ call FT.get_spent_calories swm_sample = Ok (VFloat (float_of_Z 336))
  /\ call HW.get_spent_calories swm_sample = Ok (VFloat (float_of_Z 336)).
Proof.
  split; [|split].
  - intros a d w l c v Hv. revert Hv. run_method. intros Hv.
    split; revert Hv; case_results; congruence.
  - intros a d w l c. split; run_method; case_results; reflexivity.
  - vm_compute. repeat split.
Qed.

Lemma swimming_calories_formula_witness :
  call FT.get_mean_speed
    (Swimming (VInt 720) (VInt 2) (VInt 80) (VInt 50) (VInt 30))
    = Ok (VFloat (literal 75 100))
  /\ call (FT.get_spent_calories (libm := crlibm))
       (Swimming (VInt 720) (VInt 2) (VInt 80) (VInt 50) (VInt 30))
     = Spec.swimming_calories (VFloat (literal 75 100)) (VInt 80)
  /\ call (HW.get_spent_calories (libm := crlibm))
       (Swimming (VInt 720) (VInt 2) (VInt 80) (VInt 50) (VInt 30))
     = Spec.swimming_calories (VFloat (literal 75 100)) (VInt 80).
Proof.
  assert (H : call FT.get_mean_speed
                (Swimming (VInt 720) (VInt 2) (VInt 80) (VInt 50) (VInt 30))
              = Ok (VFloat (literal 75 100))) by (vm_compute; reflexivity).
  split; [exact H|].
  exact (proj1 (swimming_calories_formula (libm := crlibm)) _ _ _ _ _ _ H).
Defined.

(** ** Zero duration *)

(** C7, as the code has it.  For every record whose duration is zero
    ([0], [0.0] or [-0.0]), [get_mean_speed] returns no value in either
    module, neither an infinity nor a NaN; and whenever the distance to be
    divided is itself computable, the exception is [ZeroDivisionError]. *)
Theorem mean_speed_zero_duration (self : training) :
  is_zero_value (duration self) = true ->
  is_ok (call FT.get_mean_speed self) = false
  /\ is_ok (call HW.get_mean_speed self) = false
  /\ forall x, Spec.covered_distance self = Ok x ->
       call FT.get_mean_speed self = Raise ZeroDivisionError
       /\ call HW.get_mean_speed self = Raise ZeroDivisionError.
Proof.
  intros Hz. rewrite <- get_mean_speed_agree.
  assert (Hdiv : forall x,
            Spec.covered_distance self = Ok x ->
            call FT.get_mean_speed self = Raise ZeroDivisionError).
  { intros x. destruct self; cbn in Hz; run_method; case_results;
      try discriminate;
      match goal with
      | H : truediv _ (VInt 1000) = Ok ?y |- _ =>
          destruct (truediv_is_float _ _ _ H) as [f ->]
      end;
      by apply truediv_float_by_zero. }
  assert (Hok : is_ok (call FT.get_mean_speed self) = false).
  { destruct self; cbn in Hz; run_method; case_results;
      try reflexivity; by apply truediv_by_zero. }
  repeat split; eauto.
Qed.

Lemma mean_speed_zero_duration_witness :
  is_zero_value (duration (Running (VInt 15000) (VInt 0) (VInt 75))) = true
  /\ is_ok (call FT.get_mean_speed (Running (VInt 15000) (VInt 0) (VInt 75)))
     = false
  /\ call FT.get_mean_speed (Running (VInt 15000) (VInt 0) (VInt 75))
     = Raise ZeroDivisionError
  /\ call HW.get_mean_speed (Running (VInt 15000) (VInt 0) (VInt 75))
     = Raise ZeroDivisionError.
Proof.
  assert (Hz : is_zero_value
                 (duration (Running (VInt 15000) (VInt 0) (VInt 75))) = true)
    by reflexivity.
  assert (Hx : Spec.covered_distance (Running (VInt 15000) (VInt 0) (VInt 75))
               = Ok (VFloat (literal 975 100)))
    by (vm_compute; reflexivity).
  destruct (mean_speed_zero_duration _ Hz) as (H1 & _ & H3).
  split; [exact Hz|]. split; [exact H1|]. exact (H3 _ Hx).
Defined.

(** C7, refuted as stated.  With a duration of zero the exception is not
    always the one of the division: the step count is multiplied by the
    step length first, and for a count of [10 ^ 400] steps, too large for a
    float, that product raises [OverflowError] in both modules before the
    division by the duration is reached. *)
Lemma mean_speed_zero_duration_overflow :
  is_zero_value (duration (Running (VInt (10 ^ 400)) (VInt 0) (VInt 75)))
    = true
  /\ Spec.covered_distance (Running (VInt (10 ^ 400)) (VInt 0) (VInt 75))
     = Raise OverflowError
  /\ call FT.get_mean_speed (Running (VInt (10 ^ 400)) (VInt 0) (VInt 75))
     = Raise OverflowError
  /\ call HW.get_mean_speed (Running (VInt (10 ^ 400)) (VInt 0) (VInt 75))
     = Raise OverflowError
  /\ call FT.get_mean_speed (Running (VInt (10 ^ 400)) (VInt 0) (VInt 75))
     <> Raise ZeroDivisionError
  /\ call HW.get_mean_speed (Running (VInt (10 ^ 400)) (VInt 0) (VInt 75))
     <> Raise ZeroDivisionError.
Proof. vm_compute. repeat split; intros [=]. Qed.

(** ** The summary reads the record and leaves it as it is *)

Lemma read_only_ret {A} (a : A) : read_only (mret a).
Proof. by intros self. Qed.

Lemma read_only_self {A} (f : training -> A) : read_only (self_ f).
Proof. by intros self. Qed.

Lemma read_only_self_try {A} (f : training -> result A) :
  read_only (self_try f).
Proof. by intros self. Qed.

Lemma read_only_self_class {A} (f : cls -> A) : read_only (self_class f).
Proof. by intros self. Qed.

Lemma read_only_lift {A} (r : result A) : read_only (lift r).
Proof. by intros self. Qed.

Lemma read_only_const (v : value) : read_only (const v).
Proof. by intros self. Qed.

Lemma read_only_bind {A B} (m : M A) (f : A -> M B) :
  read_only m -> (forall a, read_only (f a)) -> read_only (m ≫= f).
Proof.
  intros Hm Hf self. specialize (Hm self).
  unfold after, mbind, M_bind in *.
  destruct (m self) as [[a|e] self']; cbn in *; subst; [apply Hf|done].
Qed.

Lemma read_only_binop op (x y : M value) :
  read_only x -> read_only y -> read_only (binop op x y).
Proof.
  intros Hx Hy. unfold binop.
  apply read_only_bind; [done|]. intros a.
  apply read_only_bind; [done|]. intros b. apply read_only_lift.
Qed.

Create HintDb read_only.
#[export] Hint Resolve read_only_ret read_only_self read_only_self_try
  read_only_self_class read_only_lift read_only_const read_only_binop
  : read_only.
#[export] Hint Extern 2 (read_only (_ ≫= _)) =>
  apply read_only_bind; [|intros ?] : read_only.

(** Every method of [fitness_tracker.py] is read-only. *)

Lemma FT_get_distance_ro : read_only FT.get_distance.
Proof.
  unfold FT.get_distance. auto with read_only.
Qed.

Lemma FT_Training_get_mean_speed_ro : read_only FT.Training_get_mean_speed.
Proof.
  unfold FT.Training_get_mean_speed.
  auto 10 using FT_get_distance_ro with read_only.
Qed.

Lemma FT_Swimming_get_mean_speed_ro : read_only FT.Swimming_get_mean_speed.
Proof. unfold FT.Swimming_get_mean_speed. auto 12 with read_only. Qed.

Lemma FT_get_mean_speed_ro : read_only FT.get_mean_speed.
Proof.
  intros self. unfold FT.get_mean_speed.
  destruct self; cbn [class_of];
    apply FT_Training_get_mean_speed_ro
    || apply FT_Swimming_get_mean_speed_ro.
Qed.

Lemma FT_Running_get_spent_calories_ro :
  read_only FT.Running_get_spent_calories.
Proof.
  unfold FT.Running_get_spent_calories.
  auto 12 using FT_get_mean_speed_ro with read_only.
Qed.

Lemma FT_SportsWalking_get_spent_calories_ro {libm : Libm} :
  read_only FT.SportsWalking_get_spent_calories.
Proof.
  unfold FT.SportsWalking_get_spent_calories.
  auto 14 using FT_get_mean_speed_ro with read_only.
Qed.

Lemma FT_Swimming_get_spent_calories_ro :
  read_only FT.Swimming_get_spent_calories.
Proof.
  unfold FT.Swimming_get_spent_calories.
  auto 12 using FT_get_mean_speed_ro with read_only.
Qed.

Lemma FT_get_spent_calories_ro {libm : Libm} :
  read_only FT.get_spent_calories.
Proof.
  intros self. unfold FT.get_spent_calories.
  destruct self; cbn [class_of];
    [ reflexivity
    | apply FT_Running_get_spent_calories_ro
    | apply FT_SportsWalking_get_spent_calories_ro
    | apply FT_Swimming_get_spent_calories_ro ].
Qed.

Lemma FT_show_training_info_ro {libm : Libm} :
  read_only FT.show_training_info.
Proof.
  unfold FT.show_training_info.
  auto 12 using FT_get_distance_ro, FT_get_mean_speed_ro,
    FT_get_spent_calories_ro with read_only.
Qed.

(** Every method of [homework.py] is read-only. *)

Lemma HW_Training_get_distance_ro : read_only HW.Training_get_distance.
Proof. unfold HW.Training_get_distance. auto 10 with read_only. Qed.

Lemma HW_Swimming_get_distance_ro : read_only HW.Swimming_get_distance.
Proof. unfold HW.Swimming_get_distance. auto 10 with read_only. Qed.

Lemma HW_get_distance_ro : read_only HW.get_distance.
Proof.
  intros self. unfold HW.get_distance.
  destruct self; cbn [class_of];
    apply HW_Training_get_distance_ro
    || apply HW_Swimming_get_distance_ro.
Qed.

Lemma HW_Training_get_mean_speed_ro : read_only HW.Training_get_mean_speed.
Proof.
  unfold HW.Training_get_mean_speed.
  auto 10 using HW_get_distance_ro with read_only.
Qed.

Lemma HW_Swimming_get_mean_speed_ro : read_only HW.Swimming_get_mean_speed.
Proof. unfold HW.Swimming_get_mean_speed. auto 12 with read_only. Qed.

Lemma HW_get_mean_speed_ro : read_only HW.get_mean_speed.
Proof.
  intros self. unfold HW.get_mean_speed.
  destruct self; cbn [class_of];
    apply HW_Training_get_mean_speed_ro
    || apply HW_Swimming_get_mean_speed_ro.
Qed.

Lemma HW_Running_get_spent_calories_ro :
  read_only HW.Running_get_spent_calories.
Proof.
  unfold HW.Running_get_spent_calories.
  auto 12 using HW_get_mean_speed_ro with read_only.
Qed.

Lemma HW_SportsWalking_get_spent_calories_ro {libm : Libm} :
  read_only HW.SportsWalking_get_spent_calories.
Proof.
  unfold HW.SportsWalking_get_spent_calories.
  auto 14 using HW_get_mean_speed_ro with read_only.
Qed.

Lemma HW_Swimming_get_spent_calories_ro :
  read_only HW.Swimming_get_spent_calories.
Proof.
  unfold HW.Swimming_get_spent_calories.
  auto 12 using HW_get_mean_speed_ro with read_only.
Qed.

Lemma HW_get_spent_calories_ro {libm : Libm} :
  read_only HW.get_spent_calories.
Proof.
  intros self. unfold HW.get_spent_calories.
  destruct self; cbn [class_of];
    [ reflexivity
    | apply HW_Running_get_spent_calories_ro
    | apply HW_SportsWalking_get_spent_calories_ro
    | apply HW_Swimming_get_spent_calories_ro ].
Qed.

Lemma HW_show_training_info_ro {libm : Libm} :
  read_only HW.show_training_info.
Proof.
  unfold HW.show_training_info.
  auto 12 using HW_get_distance_ro, HW_get_mean_speed_ro,
    HW_get_spent_calories_ro with read_only.
Qed.

(** C9.  In both modules, computing the summary leaves the record as it
    was, and computing it again gives the same [InfoMessage] (the same
    type name, duration, distance, speed and calories), or the same
    exception. *)
Theorem show_training_info_idempotent {libm : Libm} (self : training) :
  after FT.show_training_info self = self
  /\ call FT.show_training_info (after FT.show_training_info self)
     = call FT.show_training_info self
  /\ after HW.show_training_info self = self
  /\ call HW.show_training_info (after HW.show_training_info self)
     = call HW.show_training_info self.
Proof.
  rewrite (FT_show_training_info_ro self), (HW_show_training_info_ro self).
  done.
Qed.

(** ** The two modules side by side *)

Lemma new_class (c : cls) (data : list value) (t : training) :
  new c data = Ok t -> class_of t = c.
Proof.
  destruct c, data as [|a [|d [|w [|x [|y [|z data]]]]]]; cbn;
    intros H; by simplify_eq.
Qed.

Lemma known_code_lookup (code : string) :
  code = "SWM" \/ code = "RUN" \/ code = "WLK" ->
  exists c, FT.ALL_ACTIVITIES !! code = Some c
            /\ c <> CTraining /\ (c = CSwimming <-> code = "SWM").
Proof.
  intros [-> | [-> | ->]]; eexists; (split; [reflexivity|]);
    split; try done; split; intros; done.
Qed.

Lemma show_training_info_swimming {libm : Libm} (t : training) :
  class_of t = CSwimming ->
  call FT.show_training_info t = call HW.show_training_info t.
Proof.
  destruct t; try done. intros _. run_method. case_results; reflexivity.
Qed.

Lemma show_training_info_common {libm : Libm} (t : training)
    (r1 r2 : InfoMessage) :
  call FT.show_training_info t = Ok r1 ->
  call HW.show_training_info t = Ok r2 ->
  training_type r1 = training_type r2
  /\ msg_duration r1 = msg_duration r2
  /\ msg_distance r1 = msg_distance r2
  /\ msg_speed r1 = msg_speed r2.
Proof.
  destruct t; run_method; case_results; intros; simplify_eq; done.
Qed.

(** C10, as the code has it.  For every recognised code and every reading
    list, both modules construct the same record (or fail alike on a list
    of the wrong length), and on that record they compute the same
    distance and the same mean speed; for SWM the whole summaries are the
    same; for RUN and WLK summaries that both exist have the same type
    name, duration, distance and speed.  The calories of RUN and WLK are
    left out: the two modules scale them by the duration in different
    orders (see [running_calories_formula], [walking_calories_formula]). *)
Theorem reports_agree_up_to_scaling {libm : Libm} (code : string)
    (data : list value) :
  code = "SWM" \/ code = "RUN" \/ code = "WLK" ->
  FT.read_package code data = HW.read_package code data
  /\ forall t, FT.read_package code data = Ok t ->
       call FT.get_distance t = call HW.get_distance t
       /\ call FT.get_mean_speed t = call HW.get_mean_speed t
       /\ (code = "SWM" ->
           call FT.show_training_info t = call HW.show_training_info t)
       /\ (forall r1 r2,
             call FT.show_training_info t = Ok r1 ->
             call HW.show_training_info t = Ok r2 ->
             training_type r1 = training_type r2
             /\ msg_duration r1 = msg_duration r2
             /\ msg_distance r1 = msg_distance r2
             /\ msg_speed r1 = msg_speed r2).
Proof.
  intros Hcode.
  destruct (known_code_lookup code Hcode) as (c & Hc & _ & Hswm).
  assert (Hft : FT.read_package code data = new c data)
    by (unfold FT.read_package; by rewrite Hc).
  split.
  - rewrite Hft. unfold HW.read_package. cbv zeta.
    unfold FT.ALL_ACTIVITIES in Hc. rewrite Hc.
    by destruct (new c data).
  - intros t Ht. rewrite Hft in Ht. apply new_class in Ht.
    split; [apply get_distance_agree|].
    split; [apply get_mean_speed_agree|].
    split; [|apply show_training_info_common].
    intros Hs. apply show_training_info_swimming.
    rewrite Ht. by apply Hswm.
Qed.

Lemma reports_agree_up_to_scaling_witness :
  ("SWM" = "SWM" \/ "SWM" = "RUN" \/ "SWM" = "WLK")
  /\ FT.read_package "SWM" [VInt 720; VInt 1; VInt 80; VInt 25; VInt 40]
     = Ok swm_sample
  /\ HW.read_package "SWM" [VInt 720; VInt 1; VInt 80; VInt 25; VInt 40]
     = Ok swm_sample
  /\ call (FT.show_training_info (libm := crlibm)) swm_sample
     = call (HW.show_training_info (libm := crlibm)) swm_sample.
Proof.
  assert (Hc : "SWM" = "SWM" \/ "SWM" = "RUN" \/ "SWM" = "WLK")
    by (left; reflexivity).
  assert (Ht : FT.read_package "SWM"
                 [VInt 720; VInt 1; VInt 80; VInt 25; VInt 40]
               = Ok swm_sample) by (vm_compute; reflexivity).
  destruct (reports_agree_up_to_scaling (libm := crlibm) "SWM"
              [VInt 720; VInt 1; VInt 80; VInt 25; VInt 40] Hc)
    as [Hrp Hall].
  split; [exact Hc|]. split; [exact Ht|].
  split; [rewrite <- Hrp; exact Ht|].
  exact (proj1 (proj2 (proj2 (Hall swm_sample Ht))) eq_refl).
Defined.

(** For the three sample packages, where the duration is [1], the whole
    summaries of the two modules are the same. *)
Example sample_reports_identical {libm : Libm} :
  call FT.show_training_info run_sample = call HW.show_training_info run_sample
  /\ call FT.show_training_info wlk_sample
     = call HW.show_training_info wlk_sample
  /\ call FT.show_training_info swm_sample
     = call HW.show_training_info swm_sample.
Proof.
  split; [vm_compute; reflexivity|].
  split; [eval_call|vm_compute; reflexivity].
Qed.

(** C10, refuted as stated.  For the package [('RUN', [15000, 3, 75])]
    both modules build the same record and report the same distance and
    speed, but the calories are [519.75] in [fitness_tracker.py] and
    [519.7500000000001] in [homework.py]. *)
Lemma reports_differ_on_three_hour_run :
  (forall libm : Libm,
   (t ← FT.read_package "RUN" [VInt 15000; VInt 3; VInt 75];
    call FT.show_training_info t)
   = Ok {| training_type := "Running";
          msg_duration := VInt 3;
          msg_distance := VFloat (literal 975 100);
          msg_speed := VFloat (literal 325 100);
          msg_calories := VFloat (S754_finite false 4571769348292608 (-43)) |})
  /\ (forall libm : Libm,
   (t ← HW.read_package "RUN" [VInt 15000; VInt 3; VInt 75];
    call HW.show_training_info t)
   = Ok {| training_type := "Running";
          msg_duration := VInt 3;
          msg_distance := VFloat (literal 975 100);
          msg_speed := VFloat (literal 325 100);
          msg_calories := VFloat (S754_finite false 4571769348292609 (-43)) |})
  /\ (forall libm : Libm,
   (t ← FT.read_package "RUN" [VInt 15000; VInt 3; VInt 75];
    call FT.show_training_info t)
   <> (t ← HW.read_package "RUN" [VInt 15000; VInt 3; VInt 75];
       call HW.show_training_info t)).
Proof.
  repeat split; intros libm; vm_compute; [reflexivity..|intros [=]].
Qed.

(** ** Rounding of the binary64 operations

    What the step distance needs from the arithmetic, proved from the
    definitions of the operations: an integer below [2^53] converts
    exactly, and a product or a quotient of floats with full mantissas is
    the exact value rounded to 53 digits, hence within half a unit in the
    last place of it. *)

(** *** Digits *)

(** [digits2_pos p] is the number of binary digits of [p]. *)
Lemma digits2_pos_bounds (p : positive) :
  2 ^ (Zpos (digits2_pos p) - 1) <= Zpos p < 2 ^ Zpos (digits2_pos p).
Proof.
  induction p as [p IH|p IH|]; cbn [digits2_pos].
  - rewrite Pos2Z.inj_succ, Pos2Z.inj_xI.
    replace (Z.succ (Zpos (digits2_pos p)) - 1)
      with (Z.succ (Zpos (digits2_pos p) - 1)) by lia.
    rewrite !Z.pow_succ_r by lia.
    revert IH. generalize (2 ^ (Zpos (digits2_pos p) - 1)).
    generalize (2 ^ Zpos (digits2_pos p)). lia.
  - rewrite Pos2Z.inj_succ, (Pos2Z.inj_xO p).
    replace (Z.succ (Zpos (digits2_pos p)) - 1)
      with (Z.succ (Zpos (digits2_pos p) - 1)) by lia.
    rewrite !Z.pow_succ_r by lia.
    revert IH. generalize (2 ^ (Zpos (digits2_pos p) - 1)).
    generalize (2 ^ Zpos (digits2_pos p)). lia.
  - change (1 <= 1 < 2). lia.
Qed.

Lemma digits2_pos_unique (p : positive) (k : Z) :
  2 ^ (k - 1) <= Zpos p < 2 ^ k -> Zpos (digits2_pos p) = k.
Proof.
  intros [Hl Hu]. pose proof (digits2_pos_bounds p) as [Hl' Hu'].
  assert (0 < k).
  { destruct (Z.lt_ge_cases 0 k) as [|Hk]; [done|].
    destruct (Z.eq_dec k 0) as [->|]; [cbn in Hu; lia|].
    rewrite (Z.pow_neg_r 2 k) in Hu by lia. lia. }
  assert (Zpos (digits2_pos p) - 1 < k).
  { apply (Z.pow_lt_mono_r_iff 2); lia. }
  assert (k - 1 < Zpos (digits2_pos p)).
  { apply (Z.pow_lt_mono_r_iff 2); lia. }
  lia.
Qed.

(** *** Shifting with a round bit and a sticky bit *)

(** One shift to the right halves the unit and keeps the record on the
    same rational. *)
Lemma located_shr_1 (mrs : shr_record) (num W : Z) :
  0 < W -> located mrs num W -> located (shr_1 mrs) num (2 * W).
Proof.
  intros HW. destruct mrs as [m r s]. unfold located; cbn [shr_m shr_r shr_s].
  intros (Hm & Hb & Hl).
  destruct m as [|[p|p|]|p]; [ | | | | lia];
    destruct r, s; cbn [shr_1 shr_m shr_r shr_s orb];
    rewrite ?(Pos2Z.inj_xI p), ?(Pos2Z.inj_xO p) in *; nia.
Qed.

Lemma located_iter_shr_1 (p : positive) (mrs : shr_record) (num W : Z) :
  0 < W -> located mrs num W ->
  located (SpecFloat.iter_pos shr_1 p mrs) num (2 ^ Zpos p * W).
Proof.
  revert mrs W.
  induction p as [p IH|p IH|]; intros mrs W HW Hl; cbn [SpecFloat.iter_pos].
  - rewrite (Pos2Z.inj_xI p).
    replace (2 ^ (2 * Zpos p + 1) * W)
      with (2 ^ Zpos p * (2 ^ Zpos p * (2 * W))).
    2:{ rewrite Z.pow_add_r, Z.pow_mul_r by lia.
        change (2 ^ 2) with 4. rewrite Z.pow_1_r.
        replace (4 ^ Zpos p) with (2 ^ Zpos p * 2 ^ Zpos p); [ring|].
        rewrite <- Z.pow_mul_l. reflexivity. }
    assert (0 < 2 ^ Zpos p) by (apply Z.pow_pos_nonneg; lia).
    apply IH; [nia|]. apply IH; [lia|]. by apply located_shr_1.
  - rewrite (Pos2Z.inj_xO p).
    replace (2 ^ (2 * Zpos p) * W) with (2 ^ Zpos p * (2 ^ Zpos p * W)).
    2:{ rewrite Z.pow_mul_r by lia. change (2 ^ 2) with 4.
        replace (4 ^ Zpos p) with (2 ^ Zpos p * 2 ^ Zpos p); [ring|].
        rewrite <- Z.pow_mul_l. reflexivity. }
    assert (0 < 2 ^ Zpos p) by (apply Z.pow_pos_nonneg; lia).
    apply IH; [nia|]. by apply IH.
  - change (2 ^ 1) with 2. by apply located_shr_1.
Qed.

Lemma shr_m_of_loc (m : Z) (l : location) :
  shr_m (shr_record_of_loc m l) = m.
Proof. by destruct l as [|[]]. Qed.

(** Rounding to nearest, ties to even, moves by at most half a unit. *)
Lemma round_nearest_even_located (mrs : shr_record) (num W : Z) :
  0 < W -> located mrs num W ->
  let q := round_nearest_even (shr_m mrs) (loc_of_shr_record mrs) in
  shr_m mrs <= q <= shr_m mrs + 1 /\ - W <= 2 * (q * W - num) <= W.
Proof.
  intros HW. destruct mrs as [m r s]. unfold located; cbn [shr_m shr_r shr_s].
  intros (Hm & Hb & Hl).
  destruct r, s; cbn [loc_of_shr_record round_nearest_even];
    try destruct (Z.even m); nia.
Qed.

Lemma fexp_normal (e : Z) :
  -1074 <= e - 53 -> fexp prec emax e = e - 53.
Proof. unfold fexp, emin, prec, emax. lia. Qed.

Lemma shr_fexp_located (mx : positive) (ex : Z) (lx : location)
    (num den n : Z) :
  0 < den ->
  located (shr_record_of_loc (Zpos mx) lx) num den ->
  Zpos (digits2_pos mx) = 53 + n -> 0 <= n -> -1074 <= ex + n ->
  exists mrs,
    shr_fexp prec emax (Zpos mx) ex lx = (mrs, ex + n)
    /\ located mrs num (2 ^ n * den).
Proof.
  intros Hden Hloc Hd Hn He. unfold shr_fexp. cbn [Zdigits2].
  rewrite Hd, fexp_normal by lia.
  replace (53 + n + ex - 53 - ex) with n by lia.
  destruct n as [|p|p]; [ | | lia]; cbn [shr].
  - eexists; split.
    + rewrite Z.add_0_r. reflexivity.
    + rewrite Z.pow_0_r, Z.mul_1_l. exact Hloc.
  - eexists; split; [reflexivity | ].
    apply located_iter_shr_1; assumption.
Qed.

(** Rounding a mantissa of [53 + n] digits that stands for [num / den]:
    the result has 53 digits, its exponent is raised by [n] (by [n + 1]
    when the rounding carries) and it is within [2^n / 2] of [num / den],
    in units of the original exponent. *)
Lemma binary_round_aux_located (sx : bool) (mx : positive) (ex : Z)
    (lx : location) (num den n : Z) :
  0 < den ->
  located (shr_record_of_loc (Zpos mx) lx) num den ->
  Zpos (digits2_pos mx) = 53 + n -> 0 <= n ->
  -1074 <= ex + n -> ex + n + 1 <= 971 ->
  exists (M : positive) (E : Z),
    binary_round_aux prec emax sx (Zpos mx) ex lx = S754_finite sx M E
    /\ Zpos (digits2_pos M) = 53
    /\ ex + n <= E <= ex + n + 1
    /\ - (2 ^ n * den) <= 2 * (Zpos M * 2 ^ (E - ex) * den - num)
       <= 2 ^ n * den.
Proof.
  intros Hden Hloc Hd Hn Hlo Hhi.
  destruct (shr_fexp_located mx ex lx num den n) as (mrs & Hshr & Hmrs);
    try done.
  unfold binary_round_aux. rewrite Hshr.
  assert (HW : 0 < 2 ^ n * den).
  { apply Z.mul_pos_pos; [apply Z.pow_pos_nonneg; lia|done]. }
  pose proof (round_nearest_even_located mrs num _ HW Hmrs) as [Hq Herr].
  set (q := round_nearest_even (shr_m mrs) (loc_of_shr_record mrs)) in *.
  (* the shifted mantissa has exactly 53 digits *)
  assert (Hm : 2 ^ 52 <= shr_m mrs < 2 ^ 53).
  { pose proof (digits2_pos_bounds mx) as Hb. rewrite Hd in Hb.
    replace (53 + n - 1) with (52 + n) in Hb by lia.
    rewrite !Z.pow_add_r in Hb by lia.
    destruct Hloc as (_ & Hnum & _), Hmrs as (Hm0 & Hnum' & _).
    rewrite shr_m_of_loc in Hnum.
    assert (HP : 0 < 2 ^ n) by (apply Z.pow_pos_nonneg; lia).
    revert Hb Hnum' HP. generalize (2 ^ n) (shr_m mrs). intros P m Hb Hnum' HP.
    rewrite !Z.mul_assoc in Hnum'.
    assert (m * P < Zpos mx + 1)
      by (apply (Z.mul_lt_mono_pos_r den); [done|lia]).
    assert (Zpos mx < (m + 1) * P)
      by (apply (Z.mul_lt_mono_pos_r den); [done|lia]).
    nia. }
  destruct (Z.eq_dec q (2 ^ 53)) as [Hq53|Hq53].
  - (* the rounding carried into a 54th digit *)
    rewrite Hq53. unfold shr_fexp.
    change (Zdigits2 (2 ^ 53)) with 54.
    rewrite fexp_normal by lia.
    replace (54 + (ex + n) - 53 - (ex + n)) with 1 by lia.
    cbn [shr shr_record_of_loc SpecFloat.iter_pos].
    change (shr_1 {| shr_m := 2 ^ 53; shr_r := false; shr_s := false |})
      with {| shr_m := 2 ^ 52; shr_r := false; shr_s := false |}.
    cbn [shr_m]. change (2 ^ 52) with (Zpos 4503599627370496).
    cbv iota beta.
    destruct (Z.leb_spec (ex + n + 1) (emax - prec)) as [_|Hbad];
      [ | unfold emax, prec in Hbad; lia].
    eexists _, _. split; [reflexivity|].
    split; [reflexivity|]. split; [lia|].
    replace (ex + n + 1 - ex) with (n + 1) by lia.
    rewrite Z.pow_add_r by lia. rewrite Hq53 in Herr.
    change (Zpos 4503599627370496) with (2 ^ 52).
    change (2 ^ 53) with (2 ^ 52 * 2 ^ 1) in Herr.
    lia.
  - (* no carry *)
    assert (Hq' : 2 ^ 52 <= q < 2 ^ 53) by lia.
    destruct q as [|qp|qp] eqn:Eq; [lia | | lia].
    unfold shr_fexp. cbn [Zdigits2].
    rewrite (digits2_pos_unique qp 53) by (change (53 - 1) with 52; lia).
    rewrite fexp_normal by lia.
    replace (53 + (ex + n) - 53 - (ex + n)) with 0 by lia.
    cbn [shr shr_record_of_loc shr_m]. cbv iota beta.
    destruct (Z.leb_spec (ex + n) (emax - prec)) as [_|Hbad];
      [ | unfold emax, prec in Hbad; lia].
    eexists _, _. split; [reflexivity|].
    split; [apply digits2_pos_unique; change (53 - 1) with 52; lia|].
    split; [lia|].
    replace (ex + n - ex) with n by lia. lia.
Qed.

(** *** Integers below [2^53] convert exactly *)

Lemma pos_iter_xO (p k : positive) :
  Zpos (Pos.iter xO p k) = Zpos p * 2 ^ Zpos k.
Proof.
  induction k as [|k IH] using Pos.peano_ind.
  - cbn [Pos.iter]. rewrite (Pos2Z.inj_xO p). change (2 ^ 1) with 2. lia.
  - rewrite Pos.iter_succ, Pos2Z.inj_xO, IH, Pos2Z.inj_succ.
    rewrite Z.pow_succ_r by lia. lia.
Qed.

Lemma float_of_Z_exact (a : positive) :
  Zpos a < 2 ^ 53 ->
  exists m e,
    normal (float_of_Z (Zpos a)) m e
    /\ -52 <= e <= 0
    /\ Zpos m = Zpos a * 2 ^ (- e)
    /\ e = Zpos (digits2_pos a) - 53.
Proof.
  intros Ha. pose proof (digits2_pos_bounds a) as Hb.
  set (d := Zpos (digits2_pos a)) in *.
  assert (Hd : 1 <= d <= 53).
  { split; [lia|]. destruct (Z.le_gt_cases d 53) as [|Hgt]; [done|].
    assert (2 ^ 53 <= 2 ^ (d - 1)) by (apply Z.pow_le_mono_r; lia). lia. }
  unfold float_of_Z, binary_normalize, binary_round.
  fold d. rewrite Z.add_0_r, fexp_normal by lia.
  assert (Hal : exists mz,
             shl_align a 0 (d - 53) = (mz, d - 53)
             /\ Zpos mz = Zpos a * 2 ^ (53 - d)).
  { unfold shl_align. replace (d - 53 - 0) with (d - 53) by lia.
    destruct (d - 53) as [|k|k] eqn:Hk; [ | lia | ].
    - exists a. split; [done|]. replace (53 - d) with 0 by lia. lia.
    - eexists. split; [done|]. rewrite pos_iter_xO.
      replace (53 - d) with (Zpos k) by lia. done. }
  destruct Hal as (mz & -> & Hmz).
  assert (Hdz : Zpos (digits2_pos mz) = 53 + 0).
  { apply digits2_pos_unique. rewrite Hmz.
    change (53 + 0 - 1) with 52.
    replace 52 with (d - 1 + (53 - d)) at 1 by lia.
    replace (2 ^ (53 + 0)) with (2 ^ (d + (53 - d))) by (f_equal; lia).
    rewrite !Z.pow_add_r by lia.
    assert (0 < 2 ^ (53 - d)) by (apply Z.pow_pos_nonneg; lia). nia. }
  destruct (binary_round_aux_located false mz (d - 53) loc_Exact
              (Zpos mz) 1 0) as (M & E & HM & HdM & HE & Herr);
    try lia; try done.
  { unfold located. cbn. lia. }
  rewrite HM. change (2 ^ 0) with 1 in Herr.
  pose proof (digits2_pos_bounds M) as HbM. rewrite HdM in HbM.
  change (53 - 1) with 52 in HbM.
  pose proof (digits2_pos_bounds mz) as Hbz. rewrite Hdz in Hbz.
  change (53 + 0 - 1) with 52 in Hbz. change (53 + 0) with 53 in Hbz.
  assert (E = d - 53) as ->.
  { destruct (Z.eq_dec E (d - 53)) as [|Hne]; [done|].
    replace (E - (d - 53)) with 1 in Herr by lia.
    change (2 ^ 1) with 2 in Herr. lia. }
  replace (d - 53 - (d - 53)) with 0 in Herr by lia.
  change (2 ^ 0) with 1 in Herr.
  assert (M = mz) as -> by lia.
  exists mz, (d - 53). repeat split; try done; try lia.
  rewrite Hmz. f_equal. f_equal. lia.
Qed.

(** *** Products and quotients of normal floats *)

Lemma normal_bounds (x : float) (m : positive) (e : Z) :
  normal x m e -> 2 ^ 52 <= Zpos m < 2 ^ 53.
Proof.
  intros [_ Hd]. pose proof (digits2_pos_bounds m) as Hb.
  rewrite Hd in Hb. exact Hb.
Qed.

(** The location computed from the remainder of a division places the
    quotient. *)
Lemma new_location_located (nb q r : Z) :
  0 < nb -> 0 <= q -> 0 <= r < nb ->
  located (shr_record_of_loc q (new_location nb r)) (nb * q + r) nb.
Proof.
  intros Hnb Hq Hr. unfold new_location, new_location_even, new_location_odd.
  destruct (Z.even nb) eqn:Hev.
  - destruct (Z.eqb_spec r 0) as [->|Hr0].
    + unfold located; cbn. lia.
    + destruct (Z.compare_spec (2 * r) nb);
        unfold located; cbn [shr_record_of_loc shr_m shr_r shr_s]; lia.
  - assert (Hodd : Z.odd nb = true) by (by rewrite <- Z.negb_even, Hev).
    apply Z.odd_spec in Hodd as [j Hj].
    destruct (Z.eqb_spec r 0) as [->|Hr0].
    + unfold located; cbn. lia.
    + destruct (Z.compare_spec (2 * r + 1) nb);
        unfold located; cbn [shr_record_of_loc shr_m shr_r shr_s]; lia.
Qed.

(** Two positive operands with full mantissas. *)
Section NormalOperands.

Variables (x y : float) (mx my : positive) (ex ey : Z).
Hypothesis Hx : normal x mx ex.
Hypothesis Hy : normal y my ey.

(** The product: its mantissa is within half a unit of the exact one. *)
Lemma fmul_normal :
  -1074 <= ex + ey + 52 -> ex + ey + 54 <= 971 ->
  exists M E,
    normal (fmul x y) M E
    /\ ex + ey + 52 <= E <= ex + ey + 54
    /\ - 2 ^ 53 <= 2 * (Zpos M * 2 ^ (E - (ex + ey)) - Zpos mx * Zpos my)
       <= 2 ^ 53.
Proof.
  intros Hlo Hhi.
  pose proof (normal_bounds _ _ _ Hx) as Bx.
  pose proof (normal_bounds _ _ _ Hy) as By.
  destruct Hx as [-> _], Hy as [-> _].
  unfold fmul, SFmul. cbn [xorb].
  pose proof (digits2_pos_bounds (mx * my)) as Hb.
  rewrite Pos2Z.inj_mul in Hb.
  set (d := Zpos (digits2_pos (mx * my))) in *.
  assert (Hd : 105 <= d <= 106).
  { assert (2 ^ 104 <= Zpos mx * Zpos my < 2 ^ 106).
    { change (2 ^ 104) with (2 ^ 52 * 2 ^ 52).
      change (2 ^ 106) with (2 ^ 53 * 2 ^ 53). nia. }
    split.
    - destruct (Z.le_gt_cases 105 d) as [|Hlt]; [done|].
      assert (2 ^ d <= 2 ^ 104) by (apply Z.pow_le_mono_r; lia). lia.
    - destruct (Z.le_gt_cases d 106) as [|Hgt]; [done|].
      assert (2 ^ 106 <= 2 ^ (d - 1)) by (apply Z.pow_le_mono_r; lia). lia. }
  destruct (binary_round_aux_located false (mx * my) (ex + ey) loc_Exact
              (Zpos mx * Zpos my) 1 (d - 53))
    as (M & E & HM & HdM & HE & Herr); try lia.
  { unfold located. cbn [shr_record_of_loc shr_m shr_r shr_s].
    rewrite Pos2Z.inj_mul. lia. }
  exists M, E. split; [done|]. split; [lia|].
  assert (2 ^ (d - 53) <= 2 ^ 53) by (apply Z.pow_le_mono_r; lia).
  lia.
Qed.

(** The quotient: likewise, against the exact quotient. *)
Lemma fdiv_normal :
  -1074 <= ex - ey - 53 -> ex - ey - 51 <= 971 ->
  exists M E,
    normal (fdiv x y) M E
    /\ ex - ey - 53 <= E <= ex - ey - 51
    /\ - (2 * Zpos my)
       <= 2 * (Zpos M * 2 ^ (E - (ex - ey - 53)) * Zpos my
               - Zpos mx * 2 ^ 53)
       <= 2 * Zpos my.
Proof.
  intros Hlo Hhi.
  pose proof (normal_bounds _ _ _ Hx) as Bx.
  pose proof (normal_bounds _ _ _ Hy) as By.
  destruct Hx as [-> Hdx], Hy as [-> Hdy].
  unfold fdiv, SFdiv, SFdiv_core_binary. cbn [xorb Zdigits2].
  rewrite Hdx, Hdy.
  replace (53 + ex - (53 + ey)) with (ex - ey) by lia.
  rewrite fexp_normal by lia.
  rewrite Z.min_l by lia.
  replace (ex - ey - (ex - ey - 53)) with 53 by lia.
  rewrite Z.shiftl_mul_pow2 by lia.
  pose proof (Z_div_mod (Zpos mx * 2 ^ 53) (Zpos my) eq_refl) as Hdm.
  destruct (Z.div_eucl (Zpos mx * 2 ^ 53) (Zpos my)) as [q r].
  destruct Hdm as [Hdm Hr].
  assert (Hq : 2 ^ 52 <= q < 2 ^ 54).
  { change (2 ^ 54) with (2 ^ 1 * 2 ^ 53).
    change (2 ^ 53) with (2 ^ 1 * 2 ^ 52) in *. nia. }
  destruct q as [|qp|qp]; [lia | | lia].
  pose proof (digits2_pos_bounds qp) as Hb.
  set (d := Zpos (digits2_pos qp)) in *.
  assert (Hd : 53 <= d <= 54).
  { split.
    - destruct (Z.le_gt_cases 53 d) as [|Hlt]; [done|].
      assert (2 ^ d <= 2 ^ 52) by (apply Z.pow_le_mono_r; lia). lia.
    - destruct (Z.le_gt_cases d 54) as [|Hgt]; [done|].
      assert (2 ^ 54 <= 2 ^ (d - 1)) by (apply Z.pow_le_mono_r; lia). lia. }
  destruct (binary_round_aux_located false qp (ex - ey - 53)
              (new_location (Zpos my) r) (Zpos mx * 2 ^ 53) (Zpos my)
              (d - 53))
    as (M & E & HM & HdM & HE & Herr); try lia.
  { rewrite Hdm. apply new_location_located; lia. }
  exists M, E. split; [done|]. split; [lia|].
  assert (2 ^ (d - 53) <= 2 ^ 1) by (apply Z.pow_le_mono_r; lia).
  change (2 ^ 1) with 2 in *. nia.
Qed.

(** The order of the floats is the order of their values, here scaled
    by [2^K] to integers. *)
Lemma SFltb_normal (K : Z) :
  0 <= ex + K -> 0 <= ey + K ->
  Zpos mx * 2 ^ (ex + K) < Zpos my * 2 ^ (ey + K) ->
  SFltb x y = true.
Proof.
  intros Hex Hey Hlt.
  pose proof (normal_bounds _ _ _ Hx) as Bx.
  pose proof (normal_bounds _ _ _ Hy) as By.
  destruct Hx as [-> _], Hy as [-> _].
  unfold SFltb, SFcompare.
  destruct (Z.compare_spec ex ey) as [->|Hlt'|Hgt]; [ | done | ].
  - assert (0 < 2 ^ (ey + K)) by (apply Z.pow_pos_nonneg; lia).
    assert (Zpos mx < Zpos my) by nia.
    rewrite Pos.compare_cont_spec. cbn [Pos.switch_Eq].
    by rewrite (proj2 (Pos.compare_lt_iff mx my)).
  - exfalso.
    replace (ex + K) with (ey + K + (ex - ey)) in Hlt by lia.
    rewrite Z.pow_add_r in Hlt by lia.
    assert (0 < 2 ^ (ey + K)) by (apply Z.pow_pos_nonneg; lia).
    assert (2 ^ 1 <= 2 ^ (ex - ey)) by (apply Z.pow_le_mono_r; lia).
    change (2 ^ 1) with 2 in *.
    change (2 ^ 53) with (2 * 2 ^ 52) in *.
    assert (HC : 0 < 2 ^ 52) by done.
    revert Bx By Hlt H H0 HC.
    generalize (2 ^ 52) (2 ^ (ey + K)) (2 ^ (ex - ey)) (Zpos mx) (Zpos my).
    intros C P Q a b ? ? ? ? ? ?.
    assert (b * P < a * (P * 2)) by nia.
    assert (a * (P * 2) <= a * (P * Q))
      by (apply Z.mul_le_mono_nonneg_l; [lia|];
          apply Z.mul_le_mono_nonneg_l; lia).
    lia.
Qed.

End NormalOperands.

Lemma scale_bounds (lo x hi u : Z) :
  0 <= u -> lo <= x <= hi -> lo * u <= x * u <= hi * u.
Proof. intros Hu [Hl Hh]. split; by apply Z.mul_le_mono_nonneg_r. Qed.

(** *** The step distance of a count below [2^32] *)

Lemma len_step_normal : normal len_step 5854679515581645 (-53).
Proof. split; by vm_compute. Qed.

Lemma m_in_km_normal : normal m_in_km 8796093022208000 (-43).
Proof. split; by vm_compute. Qed.

(** The scaled value [m * 2^(e + 200)] of [step_km a] is within [2^181]
    of the scaled exact product [a * 0.65 / 1000]. *)
Lemma step_km_error (a : positive) :
  Zpos a < 2 ^ 32 ->
  exists M E,
    normal (step_km (Zpos a)) M E
    /\ -200 <= E <= 0
    /\ - 2 ^ 181
       <= 1000 * (Zpos M * 2 ^ (E + 200)) - Zpos a * 5854679515581645 * 2 ^ 147
       <= 2 ^ 181.
Proof.
  intros Ha.
  destruct (float_of_Z_exact a) as (m & e & Hx & He & Hm & Hed).
  { assert (2 ^ 32 < 2 ^ 53) by done. lia. }
  assert (He' : e <= -21).
  { pose proof (digits2_pos_bounds a) as Hb.
    destruct (Z.le_gt_cases (Zpos (digits2_pos a)) 32) as [|Hgt]; [lia|].
    assert (2 ^ 32 <= 2 ^ (Zpos (digits2_pos a) - 1))
      by (apply Z.pow_le_mono_r; lia). lia. }
  destruct (fmul_normal _ _ _ _ _ _ Hx len_step_normal)
    as (Mp & Ep & Hp & HEp & Herr1); [lia..|].
  destruct (fdiv_normal _ _ _ _ _ _ Hp m_in_km_normal)
    as (Md & Ed & Hd & HEd & Herr2); [lia..|].
  exists Md, Ed. split; [exact Hd|]. split; [lia|].
  (* the powers of two that occur, and how they are related *)
  replace (Ep - (e + -53)) with (Ep - e + 53) in Herr1 by lia.
  replace (Ed - (Ep - -43 - 53)) with (Ed - Ep + 10) in Herr2 by lia.
  set (U := 2 ^ (e + 147)).
  set (T := 2 ^ (Ep + 190)).
  assert (HU : 0 < U) by (apply Z.pow_pos_nonneg; lia).
  assert (HT : 0 < T) by (apply Z.pow_pos_nonneg; lia).
  assert (HeU : 2 ^ (- e) * U = 2 ^ 147).
  { unfold U. rewrite <- Z.pow_add_r by lia. f_equal. lia. }
  assert (HaU : 2 ^ (Ep - e + 53) * U = 1024 * T).
  { unfold U, T. rewrite <- Z.pow_add_r by lia.
    change 1024 with (2 ^ 10). rewrite <- Z.pow_add_r by lia.
    f_equal. lia. }
  assert (HbT : 2 ^ (Ed + 200) = 2 ^ (Ed - Ep + 10) * T).
  { unfold T. rewrite <- Z.pow_add_r by lia. f_equal. lia. }
  assert (HTU : T <= 2 ^ 44 * U).
  { unfold T, U. rewrite <- Z.pow_add_r by lia.
    apply Z.pow_le_mono_r; lia. }
  assert (HU' : U <= 2 ^ 126) by (apply Z.pow_le_mono_r; lia).
  rewrite HbT. rewrite Hm in Herr1. clear HbT Hm.
  revert Herr1 Herr2 HeU HaU HTU HU' HU HT.
  generalize (2 ^ (Ed - Ep + 10)) (2 ^ (Ep - e + 53)) (2 ^ (- e)) U T
    (Zpos Md) (Zpos Mp) (Zpos a).
  intros beta alpha g u t md mp n Herr1 Herr2 HeU HaU HTU HU' HU HT.
  change (2 ^ 53) with 9007199254740992 in *.
  change (2 ^ 147) with 178405961588244985132285746181186892047843328 in *.
  change (2 ^ 44) with 17592186044416 in *.
  change (2 ^ 126) with 85070591730234615865843651857942052864 in *.
  change (2 ^ 181) with
    3064991081731777716716694054300618367237478244367204352 in *.
  (* the product, scaled by [u] *)
  apply (scale_bounds _ _ _ u) in Herr1; [|lia].
  replace (2 * (mp * alpha - n * g * 5854679515581645) * u)
    with (2 * (mp * (alpha * u) - n * (g * u) * 5854679515581645))
    in Herr1 by ring.
  rewrite HaU, HeU in Herr1.
  (* the quotient, scaled by [t] *)
  apply (scale_bounds _ _ _ t) in Herr2; [|lia].
  replace (2 * (md * beta * 8796093022208000 - mp * 9007199254740992) * t)
    with (8796093022208 * (2 * (1000 * (md * (beta * t)) - 1024 * (mp * t))))
    in Herr2 by ring.
  lia.
Qed.

(** The rounding errors are far below the exact gap of one step. *)
Lemma step_km_increasing (a b : Z) :
  0 <= a -> a < b -> b < 2 ^ 32 -> SFltb (step_km a) (step_km b) = true.
Proof.
  intros Ha Hab Hb.
  destruct b as [|b|b]; [lia | | lia].
  destruct (step_km_error b Hb) as (Mb & Eb & Hnb & HEb & Herrb).
  destruct a as [|a|a]; [ | | lia].
  - destruct Hnb as [-> _]. reflexivity.
  - destruct (step_km_error a) as (Ma & Ea & Hna & HEa & Herra); [lia|].
    apply (SFltb_normal _ _ _ _ _ _ Hna Hnb 200); [lia..|].
    change (2 ^ 181) with
      3064991081731777716716694054300618367237478244367204352 in *.
    change (2 ^ 147) with 178405961588244985132285746181186892047843328 in *.
    revert Herra Herrb.
    generalize (Z.pos Ma * 2 ^ (Ea + 200)) (Z.pos Mb * 2 ^ (Eb + 200)).
    intros sa sb ? ?. lia.
Qed.

(** The step distance of an integer count, as the operators compute it. *)
Lemma step_distance_float (a : Z) :
  0 <= a < 2 ^ 53 ->
  Spec.step_distance (VInt a) (VFloat len_step) = Ok (VFloat (step_km a)).
Proof.
  intros Ha.
  assert (Hconv : long_as_double a = Ok (float_of_Z a)).
  { unfold long_as_double. destruct a as [|a|a]; [done | | lia].
    destruct (float_of_Z_exact a) as (m & e & [-> _] & _); [lia|done]. }
  unfold Spec.step_distance, mul, float_binop, as_doubles.
  cbn [is_number andb as_double]. rewrite Hconv. cbn.
  reflexivity.
Qed.

(** ** The step distance grows with the count *)

Lemma step_distance_of_count (self : training) (a : Z) :
  class_of self = CRunning \/ class_of self = CSportsWalking ->
  action self = VInt a -> 0 <= a < 2 ^ 53 ->
  call FT.get_distance self = Ok (VFloat (step_km a))
  /\ call HW.get_distance self = Ok (VFloat (step_km a)).
Proof.
  intros Hc Ha Hr. rewrite <- get_distance_agree.
  assert (call FT.get_distance self
          = Spec.step_distance (VInt a) (VFloat len_step)) as ->.
  { destruct self; destruct Hc as [Hc|Hc]; try discriminate Hc;
      cbn in Ha; subst; unfold len_step; run_method; case_results;
      reflexivity. }
  split; by apply step_distance_float.
Qed.

(** C8, as the code has it.  For running and sports-walking records that
    differ only in the step count, with counts below [2^32], a strictly
    larger count gives a strictly larger distance, in both modules and
    whatever the duration, weight and height. *)
Theorem step_distance_strictly_increasing (a b : Z) (d w h : value) :
  0 <= a -> a < b -> b < 2 ^ 32 ->
  distance_lt (call FT.get_distance (Running (VInt a) d w))
              (call FT.get_distance (Running (VInt b) d w))
  /\ distance_lt (call FT.get_distance (SportsWalking (VInt a) d w h))
                 (call FT.get_distance (SportsWalking (VInt b) d w h))
  /\ distance_lt (call HW.get_distance (Running (VInt a) d w))
                 (call HW.get_distance (Running (VInt b) d w))
  /\ distance_lt (call HW.get_distance (SportsWalking (VInt a) d w h))
                 (call HW.get_distance (SportsWalking (VInt b) d w h)).
Proof.
  intros Ha Hab Hb.
  assert (H53 : 2 ^ 32 < 2 ^ 53) by done.
  pose proof (step_km_increasing a b Ha Hab Hb) as Hlt.
  repeat split;
    (exists (step_km a), (step_km b); split; [|split; [|exact Hlt]]);
    (eapply step_distance_of_count; [| reflexivity | lia]);
    cbn; auto.
Qed.

Lemma step_distance_strictly_increasing_witness :
  (0 <= 9000 /\ 9000 < 9001 /\ 9001 < 2 ^ 32)
  /\ distance_lt
       (call FT.get_distance (Running (VInt 9000) (VInt 1) (VInt 75)))
       (call FT.get_distance (Running (VInt 9001) (VInt 1) (VInt 75)))
  /\ distance_lt
       (call HW.get_distance
          (SportsWalking (VInt 9000) (VInt 1) (VInt 75) (VInt 180)))
       (call HW.get_distance
          (SportsWalking (VInt 9001) (VInt 1) (VInt 75) (VInt 180))).
Proof.
  assert (H1 : 0 <= 9000) by lia.
  assert (H2 : 9000 < 9001) by lia.
  assert (H3 : 9001 < 2 ^ 32) by reflexivity.
  destruct (step_distance_strictly_increasing
              9000 9001 (VInt 1) (VInt 75) (VInt 180) H1 H2 H3)
    as (Hr & _ & _ & Hw).
  split; [exact (conj H1 (conj H2 H3))|]. split; [exact Hr|exact Hw].
Defined.

(** C8, refuted as stated.  The counts [2^53] and [2^53 + 1] convert to
    the same float, so the two records have the same distance,
    [5854679515581.645], in both modules. *)
Lemma step_distance_not_strict_at_2_53 :
  call FT.get_distance (Running (VInt 9007199254740992) (VInt 1) (VInt 75))
    = Ok (VFloat (S754_finite false 5995191823955604 (-10)))
  /\ call FT.get_distance (Running (VInt 9007199254740993) (VInt 1) (VInt 75))
    = Ok (VFloat (S754_finite false 5995191823955604 (-10)))
  /\ ~ distance_lt
       (call FT.get_distance
          (Running (VInt 9007199254740992) (VInt 1) (VInt 75)))
       (call FT.get_distance
          (Running (VInt 9007199254740993) (VInt 1) (VInt 75)))
  /\ ~ distance_lt
       (call HW.get_distance
          (Running (VInt 9007199254740992) (VInt 1) (VInt 75)))
       (call HW.get_distance
          (Running (VInt 9007199254740993) (VInt 1) (VInt 75))).
Proof.
  assert (H1 : call FT.get_distance
                 (Running (VInt 9007199254740992) (VInt 1) (VInt 75))
               = Ok (VFloat (S754_finite false 5995191823955604 (-10))))
    by (vm_compute; reflexivity).
  assert (H2 : call FT.get_distance
                 (Running (VInt 9007199254740993) (VInt 1) (VInt 75))
               = Ok (VFloat (S754_finite false 5995191823955604 (-10))))
    by (vm_compute; reflexivity).
  split; [exact H1|]. split; [exact H2|].
  rewrite <- !get_distance_agree, H1, H2.
  split; intros (x & y & Hx & Hy & Hlt); simplify_eq; vm_compute in Hlt;
    discriminate.
Qed.

(** ** Records built by the dispatcher *)

Lemma new_by_length (c : cls) (data : list value) :
  (length data = arity c ->
   exists t, new c data = Ok t /\ class_of t = c /\ fields t = data)
  /\ (length data <> arity c -> new c data = Raise TypeError).
Proof.
  destruct c, data as [|a [|d [|w [|x [|y [|z data]]]]]]; cbn;
    split; intros H; try done; try lia; eauto.
Qed.

Lemma HW_read_package_lookup (code : string) (data : list value) (c : cls) :
  FT.ALL_ACTIVITIES !! code = Some c ->
  FT.read_package code data = new c data
  /\ HW.read_package code data = new c data.
Proof.
  intros Hc. split.
  - unfold FT.read_package. by rewrite Hc.
  - unfold HW.read_package. cbv zeta. unfold FT.ALL_ACTIVITIES in Hc.
    rewrite Hc. by destruct (new c data).
Qed.

(** X1.  For a recognised code, both modules build a record exactly when
    the reading list has as many values as the [__init__] of the class
    takes (three for running, four for sports walking, five for
    swimming): the record is then the same in both modules, it is of the
    class that the code names, and its fields are the values of the list
    in their order.  With any other number of values both modules raise
    [TypeError]. *)
Theorem read_package_by_length (code : string) (data : list value) (c : cls) :
  FT.ALL_ACTIVITIES !! code = Some c ->
  (length data = arity c ->
   exists t, FT.read_package code data = Ok t
             /\ HW.read_package code data = Ok t
             /\ class_of t = c /\ fields t = data)
  /\ (length data <> arity c ->
      FT.read_package code data = Raise TypeError
      /\ HW.read_package code data = Raise TypeError).
Proof.
  intros Hc.
  destruct (HW_read_package_lookup code data c Hc) as [-> ->].
  destruct (new_by_length c data) as [Hok Hbad]. split.
  - intros Hl. destruct (Hok Hl) as (t & Ht & Hcl & Hf). eauto.
  - intros Hl. by rewrite Hbad.
Qed.

Lemma read_package_by_length_witness :
  FT.ALL_ACTIVITIES !! "WLK" = Some CSportsWalking
  /\ (exists t,
        FT.read_package "WLK" [VInt 9000; VInt 1; VInt 75; VInt 180] = Ok t
        /\ HW.read_package "WLK" [VInt 9000; VInt 1; VInt 75; VInt 180] = Ok t
        /\ class_of t = CSportsWalking
        /\ fields t = [VInt 9000; VInt 1; VInt 75; VInt 180])
  /\ FT.read_package "WLK" [VInt 9000; VInt 1; VInt 75] = Raise TypeError
  /\ HW.read_package "WLK" [VInt 9000; VInt 1; VInt 75] = Raise TypeError.
Proof.
  assert (Hc : FT.ALL_ACTIVITIES !! "WLK" = Some CSportsWalking)
    by reflexivity.
  split; [exact Hc|]. split.
  - apply (proj1 (read_package_by_length "WLK" _ _ Hc)). reflexivity.
  - apply (proj2 (read_package_by_length "WLK" [VInt 9000; VInt 1; VInt 75]
                    _ Hc)).
    cbn. lia.
Defined.

(** ** The summary, method by method *)

Lemma call_bind {A B} (m : M A) (f : A -> M B) (self : training) :
  read_only m ->
  call (m ≫= f) self
  = match call m self with Ok a => call (f a) self | Raise e => Raise e end.
Proof.
  intros Hm. specialize (Hm self). unfold call, after, mbind, M_bind in *.
  destruct (m self) as [[a|e] self']; cbn in *; by subst.
Qed.

Lemma call_self {A} (f : training -> A) (self : training) :
  call (self_ f) self = Ok (f self).
Proof. reflexivity. Qed.

(** The summary calls the three methods in turn, each on the record as
    it was, and stops at the first that raises. *)
Lemma show_training_info_by_method {libm : Libm} (self : training) :
  call FT.show_training_info self
  = (distance ← call FT.get_distance self;
     speed ← call FT.get_mean_speed self;
     calories ← call FT.get_spent_calories self;
     Ok {| training_type := class_name (class_of self);
           msg_duration := duration self;
           msg_distance := distance; msg_speed := speed;
           msg_calories := calories |})
  /\ call HW.show_training_info self
  = (distance ← call HW.get_distance self;
     speed ← call HW.get_mean_speed self;
     calories ← call HW.get_spent_calories self;
     Ok {| training_type := class_name (class_of self);
           msg_duration := duration self;
           msg_distance := distance; msg_speed := speed;
           msg_calories := calories |}).
Proof.
  split.
  - unfold FT.show_training_info.
    rewrite call_bind, call_self by apply read_only_self.
    rewrite call_bind, call_self by apply read_only_self.
    rewrite call_bind by apply FT_get_distance_ro.
    destruct (call FT.get_distance self); [|done].
    rewrite call_bind by apply FT_get_mean_speed_ro.
    destruct (call FT.get_mean_speed self); [|done].
    rewrite call_bind by apply FT_get_spent_calories_ro.
    by destruct (call FT.get_spent_calories self).
  - unfold HW.show_training_info.
    rewrite call_bind, call_self by apply read_only_self.
    rewrite call_bind, call_self by apply read_only_self.
    rewrite call_bind by apply HW_get_distance_ro.
    destruct (call HW.get_distance self); [|done].
    rewrite call_bind by apply HW_get_mean_speed_ro.
    destruct (call HW.get_mean_speed self); [|done].
    rewrite call_bind by apply HW_get_spent_calories_ro.
    by destruct (call HW.get_spent_calories self).
Qed.

(** X2.  In the summary of a record that is not a swimming record, the
    speed is the distance of the summary divided by its duration, in both
    modules. *)
Theorem summary_speed_is_distance_over_duration {libm : Libm}
    (self : training) (r : InfoMessage) :
  class_of self <> CSwimming ->
  call FT.show_training_info self = Ok r
  \/ call HW.show_training_info self = Ok r ->
  truediv (msg_distance r) (msg_duration r) = Ok (msg_speed r).
Proof.
  intros Hc Hr.
  assert (Hft : call FT.show_training_info self = Ok r
                \/ call HW.show_training_info self = Ok r) by exact Hr.
  clear Hr. revert Hft.
  destruct self; try done; intros [H|H]; revert H;
    run_method; case_results; intros; simplify_eq; cbn; congruence.
Qed.

Lemma summary_speed_is_distance_over_duration_witness :
  class_of run_sample <> CSwimming
  /\ call (FT.show_training_info (libm := crlibm)) run_sample
     = Ok {| training_type := "Running"; msg_duration := VInt 1;
             msg_distance := VFloat (literal 975 100);
             msg_speed := VFloat (literal 975 100);
             msg_calories := VFloat (literal 69975 100) |}
  /\ truediv (VFloat (literal 975 100)) (VInt 1)
     = Ok (VFloat (literal 975 100)).
Proof.
  assert (Hc : class_of run_sample <> CSwimming) by discriminate.
  assert (Hr : call (FT.show_training_info (libm := crlibm)) run_sample
               = Ok {| training_type := "Running"; msg_duration := VInt 1;
                       msg_distance := VFloat (literal 975 100);
                       msg_speed := VFloat (literal 975 100);
                       msg_calories := VFloat (literal 69975 100) |})
    by (vm_compute; reflexivity).
  split; [exact Hc|]. split; [exact Hr|].
  exact (summary_speed_is_distance_over_duration (libm := crlibm)
           _ _ Hc (or_introl Hr)).
Defined.

(** X3.  For a swimming record the mean speed and the calories do not
    depend on the stroke count, and the distance does not depend on the
    pool, in both modules. *)
Theorem swimming_strokes_and_pool_are_separate {libm : Libm}
    (a a' d w l c l' c' : value) :
  (call FT.get_mean_speed (Swimming a d w l c)
   = call FT.get_mean_speed (Swimming a' d w l c)
   /\ call FT.get_spent_calories (Swimming a d w l c)
      = call FT.get_spent_calories (Swimming a' d w l c)
   /\ call FT.get_distance (Swimming a d w l c)
      = call FT.get_distance (Swimming a d w l' c'))
  /\ (call HW.get_mean_speed (Swimming a d w l c)
      = call HW.get_mean_speed (Swimming a' d w l c)
      /\ call HW.get_spent_calories (Swimming a d w l c)
         = call HW.get_spent_calories (Swimming a' d w l c)
      /\ call HW.get_distance (Swimming a d w l c)
         = call HW.get_distance (Swimming a d w l' c')).
Proof.
  repeat split; run_method; case_results; reflexivity.
Qed.

(** ** Degenerate readings *)

(** The calories of the three concrete classes need the mean speed. *)
Lemma calories_need_mean_speed {libm : Libm} (self : training) :
  class_of self <> CTraining ->
  is_ok (call FT.get_mean_speed self) = false ->
  is_ok (call FT.get_spent_calories self) = false
  /\ is_ok (call HW.get_spent_calories self) = false.
Proof.
  destruct self; try done; intros _; run_method; case_results; cbn;
    done.
Qed.

(** X4.  A record whose duration is zero has no summary:
    [show_training_info] raises in both modules, and so does
    [get_spent_calories] on a record of any of the three concrete
    classes. *)
Lemma mean_speed_needs_duration (self : training) :
  is_zero_value (duration self) = true ->
  is_ok (call FT.get_mean_speed self) = false
  /\ is_ok (call HW.get_mean_speed self) = false.
Proof.
  intros Hz. rewrite <- get_mean_speed_agree.
  assert (is_ok (call FT.get_mean_speed self) = false); [|done].
  destruct self; cbn in Hz; run_method; case_results;
    try reflexivity; by apply truediv_by_zero.
Qed.

Theorem zero_duration_gives_no_summary {libm : Libm} (self : training) :
  is_zero_value (duration self) = true ->
  is_ok (call FT.show_training_info self) = false
  /\ is_ok (call HW.show_training_info self) = false
  /\ (class_of self <> CTraining ->
      is_ok (call FT.get_spent_calories self) = false
      /\ is_ok (call HW.get_spent_calories self) = false).
Proof.
  intros Hz.
  destruct (mean_speed_needs_duration self Hz) as (Hft & Hhw).
  destruct (show_training_info_by_method self) as [-> ->].
  split; [|split].
  - destruct (call FT.get_distance self); [|done]. cbn.
    by destruct (call FT.get_mean_speed self).
  - destruct (call HW.get_distance self); [|done]. cbn.
    by destruct (call HW.get_mean_speed self).
  - intros Hc. by apply calories_need_mean_speed.
Qed.

Lemma zero_duration_gives_no_summary_witness :
  is_zero_value (duration (Swimming (VInt 720) (VFloat fzero) (VInt 80)
                             (VInt 25) (VInt 40))) = true
  /\ is_ok (call (FT.show_training_info (libm := crlibm))
              (Swimming (VInt 720) (VFloat fzero) (VInt 80)
                 (VInt 25) (VInt 40))) = false
  /\ is_ok (call (HW.show_training_info (libm := crlibm))
              (Swimming (VInt 720) (VFloat fzero) (VInt 80)
                 (VInt 25) (VInt 40))) = false.
Proof.
  assert (Hz : is_zero_value
                 (duration (Swimming (VInt 720) (VFloat fzero) (VInt 80)
                              (VInt 25) (VInt 40))) = true) by reflexivity.
  destruct (zero_duration_gives_no_summary (libm := crlibm) _ Hz)
    as (H1 & H2 & _).
  split; [exact Hz|]. split; [exact H1|exact H2].
Defined.

Lemma floordiv_by_zero (x h : value) :
  is_zero_value h = true -> is_ok (floordiv x h) = false.
Proof.
  destruct h as [|n|y]; [done| |]; cbn; intros Hz.
  - apply Z.eqb_eq in Hz as ->.
    by destruct x as [|a|a].
  - destruct y; try done.
    destruct x as [|a|a]; try done; unfold floordiv, as_doubles; cbn.
    by destruct (long_as_double a).
Qed.

Lemma floordiv_float_by_zero (x : float) (h : value) :
  is_zero_value h = true -> floordiv (VFloat x) h = Raise ZeroDivisionError.
Proof.
  destruct h as [|n|y]; [done| |]; cbn; intros Hz.
  - by apply Z.eqb_eq in Hz as ->.
  - by destruct y.
Qed.

Lemma square_is_float {libm : Libm} (x : float) (v : value) :
  square (VFloat x) = Ok v -> exists y, v = VFloat y.
Proof.
  unfold square. cbv [mbind result_bind].
  destruct (float_pow2 pow2 x); intros; simplify_eq; eauto.
Qed.

(** X5.  A sports-walking record whose height is zero ([0], [0.0] or
    [-0.0]) has no calories: [get_spent_calories] raises in both modules,
    whatever the C library, and when the mean speed, the weight term and
    the square of the speed are computed the exception is
    [ZeroDivisionError], raised by the floor division. *)
Theorem walking_zero_height {libm : Libm} (a d w h : value) :
  is_zero_value h = true ->
  is_ok (call FT.get_spent_calories (SportsWalking a d w h)) = false
  /\ is_ok (call HW.get_spent_calories (SportsWalking a d w h)) = false
  /\ forall v wt sq,
       call FT.get_mean_speed (SportsWalking a d w h) = Ok v ->
       mul (VFloat (literal 35 1000)) w = Ok wt ->
       square v = Ok sq ->
       call FT.get_spent_calories (SportsWalking a d w h)
         = Raise ZeroDivisionError
       /\ call HW.get_spent_calories (SportsWalking a d w h)
         = Raise ZeroDivisionError.
Proof.
  intros Hz. split; [|split].
  - run_method. case_results; try reflexivity;
      match goal with
      | H : floordiv ?x h = Ok _ |- _ =>
          pose proof (floordiv_by_zero x h Hz) as Hf;
          rewrite H in Hf; discriminate Hf
      end.
  - run_method. case_results; try reflexivity;
      match goal with
      | H : floordiv ?x h = Ok _ |- _ =>
          pose proof (floordiv_by_zero x h Hz) as Hf;
          rewrite H in Hf; discriminate Hf
      end.
  - intros v wt sq Hv Hwt Hsq.
    assert (exists y, v = VFloat y) as [y ->].
    { revert Hv. run_method. case_results; try discriminate.
      intros. eauto using truediv_is_float. }
    destruct (square_is_float _ _ Hsq) as [s ->].
    revert Hv. run_method. rewrite Hwt. cbn.
    case_results; simplify_eq;
      match goal with
      | H : floordiv (VFloat ?s) h = _ |- _ =>
          rewrite (floordiv_float_by_zero s h Hz) in H; by simplify_eq
      end.
Qed.

Lemma walking_zero_height_witness :
  is_zero_value (VFloat (S754_zero true)) = true
  /\ call (FT.get_spent_calories (libm := crlibm))
       (SportsWalking (VInt 9000) (VInt 1) (VInt 75) (VFloat (S754_zero true)))
     = Raise ZeroDivisionError.
Proof.
  split; [reflexivity|].
  destruct (walking_zero_height (libm := crlibm)
              (VInt 9000) (VInt 1) (VInt 75)
              (VFloat (S754_zero true)) eq_refl) as (_ & _ & H).
  assert (Hv : call FT.get_mean_speed
                 (SportsWalking (VInt 9000) (VInt 1) (VInt 75)
                    (VFloat (S754_zero true)))
               = Ok (VFloat (literal 585 100))) by (vm_compute; reflexivity).
  assert (Hw : mul (VFloat (literal 35 1000)) (VInt 75)
               = Ok (VFloat (S754_finite false 5910974510923777 (-51))))
    by (vm_compute; reflexivity).
  assert (Hs : square (libm := crlibm) (VFloat (literal 585 100))
               = Ok (VFloat (literal 342225 10000)))
    by (vm_compute; reflexivity).
  exact (proj1 (H _ _ _ Hv Hw Hs)).
Defined.

(** ** The message of a summary *)

Lemma float_binop_float (op : float -> float -> float) (v w r : value) :
  float_binop op v w = Ok r -> exists z, r = VFloat z.
Proof.
  unfold float_binop, as_doubles.
  cbv [mbind mret result_bind result_ret].
  repeat (case_match; cbn; try done); intros ?; simplify_eq; eauto.
Qed.

Lemma mul_float_l (x : float) (w r : value) :
  mul (VFloat x) w = Ok r -> exists z, r = VFloat z.
Proof. apply float_binop_float. Qed.

Lemma mul_float_r (v : value) (y : float) (r : value) :
  mul v (VFloat y) = Ok r -> exists z, r = VFloat z.
Proof. destruct v; apply float_binop_float. Qed.

Lemma add_float_l (x : float) (w r : value) :
  add (VFloat x) w = Ok r -> exists z, r = VFloat z.
Proof. apply float_binop_float. Qed.

Lemma add_float_r (v : value) (y : float) (r : value) :
  add v (VFloat y) = Ok r -> exists z, r = VFloat z.
Proof. destruct v; apply float_binop_float. Qed.

Lemma sub_float_l (x : float) (w r : value) :
  sub (VFloat x) w = Ok r -> exists z, r = VFloat z.
Proof. apply float_binop_float. Qed.

Lemma floordiv_float_l (x : float) (w r : value) :
  floordiv (VFloat x) w = Ok r -> exists z, r = VFloat z.
Proof.
  unfold floordiv, as_doubles.
  cbv [mbind mret result_bind result_ret].
  repeat (case_match; cbn; try done); intros ?; simplify_eq; eauto.
Qed.

Lemma truediv_float_l (x : float) (d v : value) :
  truediv (VFloat x) d = Ok v -> is_ok (as_double d) = true.
Proof.
  unfold truediv, as_doubles.
  cbv [mbind mret result_bind result_ret].
  destruct d; cbn; try done. by destruct (long_as_double _).
Qed.

(** Every result that passed through a float operation is a float. *)
Ltac floats :=
  repeat match goal with
    | H : truediv _ _ = Ok ?v |- _ =>
        is_var v; destruct (truediv_is_float _ _ _ H) as [? ->]
    | H : mul (VFloat _) _ = Ok ?v |- _ =>
        is_var v; destruct (mul_float_l _ _ _ H) as [? ->]
    | H : mul _ (VFloat _) = Ok ?v |- _ =>
        is_var v; destruct (mul_float_r _ _ _ H) as [? ->]
    | H : add (VFloat _) _ = Ok ?v |- _ =>
        is_var v; destruct (add_float_l _ _ _ H) as [? ->]
    | H : add _ (VFloat _) = Ok ?v |- _ =>
        is_var v; destruct (add_float_r _ _ _ H) as [? ->]
    | H : sub (VFloat _) _ = Ok ?v |- _ =>
        is_var v; destruct (sub_float_l _ _ _ H) as [? ->]
    | H : square (VFloat _) = Ok ?v |- _ =>
        is_var v; destruct (square_is_float _ _ H) as [? ->]
    | H : floordiv (VFloat _) _ = Ok ?v |- _ =>
        is_var v; destruct (floordiv_float_l _ _ _ H) as [? ->]
    end.

Lemma get_distance_float (self : training) (v : value) :
  call FT.get_distance self = Ok v -> exists y, v = VFloat y.
Proof.
  destruct self; run_method; case_results; intros; simplify_eq;
    eauto using truediv_is_float.
Qed.

Lemma get_mean_speed_float (self : training) (v : value) :
  call FT.get_mean_speed self = Ok v ->
  (exists y, v = VFloat y) /\ is_ok (as_double (duration self)) = true.
Proof.
  destruct self; run_method; case_results; intros; simplify_eq;
    (split; [eauto using truediv_is_float|]); floats;
    eauto using truediv_float_l.
Qed.

Lemma get_spent_calories_float {libm : Libm} (self : training) (v : value) :
  class_of self <> CTraining ->
  call FT.get_spent_calories self = Ok v
  \/ call HW.get_spent_calories self = Ok v ->
  exists y, v = VFloat y.
Proof.
  destruct self; try done; intros _ [H|H]; revert H;
    run_method; case_results; intros; simplify_eq; floats; eauto.
Qed.

Lemma format_3f_double (v : value) :
  is_ok (as_double v) = true -> is_ok (format_3f v) = true.
Proof. destruct v; cbn; try done. by destruct (long_as_double _). Qed.

Lemma show_training_info_fields {libm : Libm} (self : training)
    (info : InfoMessage) :
  call FT.show_training_info self = Ok info
  \/ call HW.show_training_info self = Ok info ->
  training_type info = class_name (class_of self)
  /\ msg_duration info = duration self
  /\ call FT.get_distance self = Ok (msg_distance info)
  /\ call FT.get_mean_speed self = Ok (msg_speed info)
  /\ (call FT.get_spent_calories self = Ok (msg_calories info)
      \/ call HW.get_spent_calories self = Ok (msg_calories info)).
Proof.
  intros [H|H]; revert H.
  - rewrite (proj1 (show_training_info_by_method self)).
    cbv [mbind mret result_bind result_ret].
    repeat (case_match; try done). intros [= <-]; cbn. eauto 10.
  - rewrite (proj2 (show_training_info_by_method self)).
    rewrite <- get_distance_agree, <- get_mean_speed_agree.
    cbv [mbind mret result_bind result_ret].
    repeat (case_match; try done). intros [= <-]; cbn. eauto 10.
Qed.

Lemma main_of_summary show (self : training) (info : InfoMessage)
    (out : list string) :
  call show self = Ok info ->
  main show self out
  = match get_message info with
    | Ok s => (Ok tt, out ++ [s])
    | Raise e => (Raise e, out)
    end.
Proof.
  intros H. unfold main, io_lift, print.
  cbv [mbind mret IO_bind IO_ret]. rewrite H. by destruct (get_message info).
Qed.

(** X6.  The summary of a record of the base class cannot be printed:
    its calories are [None], which the format [.3f] refuses, so
    [get_message] raises [TypeError], after the other three numbers were
    formatted, and [main] prints nothing, in both modules. *)
Theorem base_training_has_no_message {libm : Libm} (self : training)
    (info : InfoMessage) (out : list string) :
  class_of self = CTraining ->
  call FT.show_training_info self = Ok info
  \/ call HW.show_training_info self = Ok info ->
  get_message info = Raise TypeError
  /\ main FT.show_training_info self out = (Raise TypeError, out)
  /\ main HW.show_training_info self out = (Raise TypeError, out).
Proof.
  intros Hc H.
  assert (call FT.show_training_info self = Ok info
          /\ call HW.show_training_info self = Ok info) as [HF HH].
  { destruct self; try done. revert H. run_method.
    case_results; intros [?|?]; simplify_eq; done. }
  assert (get_message info = Raise TypeError) as Hm.
  { destruct (show_training_info_fields self info H)
      as (_ & Hd & Hdist & Hspeed & Hcal).
    destruct (get_distance_float _ _ Hdist) as [x Hx].
    destruct (get_mean_speed_float _ _ Hspeed) as [[y Hy] Hdur].
    assert (msg_calories info = VNone) as Hn.
    { destruct self; try done. by destruct Hcal as [Hcal|Hcal]; injection Hcal. }
    apply format_3f_double in Hdur.
    unfold get_message. rewrite Hd, Hx, Hy, Hn.
    by destruct (format_3f (duration self)). }
  by rewrite !(main_of_summary _ _ info), Hm.
Qed.

Lemma base_training_has_no_message_witness :
  class_of (Training (VInt 9000) (VInt 1) (VInt 75)) = CTraining
  /\ main (FT.show_training_info (libm := crlibm))
       (Training (VInt 9000) (VInt 1) (VInt 75)) []
     = (Raise TypeError, []).
Proof.
  split; [reflexivity|].
  refine (proj1 (proj2 (base_training_has_no_message (libm := crlibm)
            (Training (VInt 9000) (VInt 1) (VInt 75)) _ [] eq_refl
            (or_introl _)))).
  vm_compute. reflexivity.
Defined.

(** X7.  Every summary of a running, sports-walking or swimming record
    has a message: its duration is a number that converts to a float, its
    distance, speed and calories are floats, and [get_message] returns the
    line made of the class name and the four numbers with three decimals
    each. *)
Theorem concrete_training_has_message {libm : Libm} (self : training)
    (info : InfoMessage) :
  class_of self <> CTraining ->
  call FT.show_training_info self = Ok info
  \/ call HW.show_training_info self = Ok info ->
  exists d x y z : float,
    as_double (msg_duration info) = Ok d
    /\ msg_distance info = VFloat x
    /\ msg_speed info = VFloat y
    /\ msg_calories info = VFloat z
    /\ get_message info
       = Ok ("Тип тренировки: " +:+ class_name (class_of self) +:+ "; "
             +:+ "Длительность: " +:+ format_float_3f d +:+ " ч.; "
             +:+ "Дистанция: " +:+ format_float_3f x +:+ " км; "
             +:+ "Ср. скорость: " +:+ format_float_3f y +:+ " км/ч; "
             +:+ "Потрачено ккал: " +:+ format_float_3f z +:+ ".").
Proof.
  intros Hc H.
  destruct (show_training_info_fields self info H)
    as (Hn & Hd & Hdist & Hspeed & Hcal).
  destruct (get_distance_float _ _ Hdist) as [x Hx].
  destruct (get_mean_speed_float _ _ Hspeed) as [[y Hy] Hdur].
  destruct (get_spent_calories_float self _ Hc Hcal) as [z Hz].
  rewrite <- Hd in Hdur.
  destruct (as_double (msg_duration info)) as [d|] eqn:Hdd; [|done].
  exists d, x, y, z. repeat split; try done.
  unfold get_message. rewrite Hn, Hx, Hy, Hz.
  destruct (msg_duration info); cbn in *; simplify_eq; try done.
  by rewrite Hdd.
Qed.

Lemma concrete_training_has_message_witness :
  class_of run_sample <> CTraining
  /\ exists info,
       call (HW.show_training_info (libm := crlibm)) run_sample = Ok info
       /\ get_message info
          = Ok "Тип тренировки: Running; Длительность: 1.000 ч.; Дистанция: 9.750 км; Ср. скорость: 9.750 км/ч; Потрачено ккал: 699.750.".
Proof.
  split; [discriminate|].
  eexists. split; [vm_compute; reflexivity|].
  match goal with
  | |- get_message ?i = _ =>
      assert (call (HW.show_training_info (libm := crlibm)) run_sample
              = Ok i) as H
        by (vm_compute; reflexivity);
      destruct (concrete_training_has_message (libm := crlibm) run_sample i
                  ltac:(discriminate) (or_intror H))
        as (d & x & y & z & Hd & Hx & Hy & Hz & Hm)
  end.
  vm_compute in Hd, Hx, Hy, Hz.
  injection Hd as <-. injection Hx as <-.
  injection Hy as <-. injection Hz as <-.
  rewrite Hm. vm_compute. reflexivity.
Defined.

(** ** The script *)




(** ** The swimming distance grows with the stroke count *)

Lemma len_stroke_normal : normal len_stroke 6214967485771284 (-52).
Proof. split; by vm_compute. Qed.

(** The scaled value [m * 2^(e + 200)] of [stroke_km a] is within [2^182]
    of the scaled exact product [a * 1.38 / 1000]. *)
Lemma stroke_km_error (a : positive) :
  Zpos a < 2 ^ 32 ->
  exists M E,
    normal (stroke_km (Zpos a)) M E
    /\ -200 <= E <= 0
    /\ - 2 ^ 182
       <= 1000 * (Zpos M * 2 ^ (E + 200)) - Zpos a * 6214967485771284 * 2 ^ 148
       <= 2 ^ 182.
Proof.
  intros Ha.
  destruct (float_of_Z_exact a) as (m & e & Hx & He & Hm & Hed).
  { assert (2 ^ 32 < 2 ^ 53) by done. lia. }
  assert (He' : e <= -21).
  { pose proof (digits2_pos_bounds a) as Hb.
    destruct (Z.le_gt_cases (Zpos (digits2_pos a)) 32) as [|Hgt]; [lia|].
    assert (2 ^ 32 <= 2 ^ (Zpos (digits2_pos a) - 1))
      by (apply Z.pow_le_mono_r; lia). lia. }
  destruct (fmul_normal _ _ _ _ _ _ Hx len_stroke_normal)
    as (Mp & Ep & Hp & HEp & Herr1); [lia..|].
  destruct (fdiv_normal _ _ _ _ _ _ Hp m_in_km_normal)
    as (Md & Ed & Hd & HEd & Herr2); [lia..|].
  exists Md, Ed. split; [exact Hd|]. split; [lia|].
  replace (Ep - (e + -52)) with (Ep - e + 52) in Herr1 by lia.
  replace (Ed - (Ep - -43 - 53)) with (Ed - Ep + 10) in Herr2 by lia.
  set (U := 2 ^ (e + 148)).
  set (T := 2 ^ (Ep + 190)).
  assert (HU : 0 < U) by (apply Z.pow_pos_nonneg; lia).
  assert (HT : 0 < T) by (apply Z.pow_pos_nonneg; lia).
  assert (HeU : 2 ^ (- e) * U = 2 ^ 148).
  { unfold U. rewrite <- Z.pow_add_r by lia. f_equal. lia. }
  assert (HaU : 2 ^ (Ep - e + 52) * U = 1024 * T).
  { unfold U, T. rewrite <- Z.pow_add_r by lia.
    change 1024 with (2 ^ 10). rewrite <- Z.pow_add_r by lia.
    f_equal. lia. }
  assert (HbT : 2 ^ (Ed + 200) = 2 ^ (Ed - Ep + 10) * T).
  { unfold T. rewrite <- Z.pow_add_r by lia. f_equal. lia. }
  assert (HTU : T <= 2 ^ 44 * U).
  { unfold T, U. rewrite <- Z.pow_add_r by lia.
    apply Z.pow_le_mono_r; lia. }
  assert (HU' : U <= 2 ^ 127) by (apply Z.pow_le_mono_r; lia).
  rewrite HbT. rewrite Hm in Herr1. clear HbT Hm.
  revert Herr1 Herr2 HeU HaU HTU HU' HU HT.
  generalize (2 ^ (Ed - Ep + 10)) (2 ^ (Ep - e + 52)) (2 ^ (- e)) U T
    (Zpos Md) (Zpos Mp) (Zpos a).
  intros beta alpha g u t md mp n Herr1 Herr2 HeU HaU HTU HU' HU HT.
  change (2 ^ 53) with 9007199254740992 in *.
  change (2 ^ 148) with 356811923176489970264571492362373784095686656 in *.
  change (2 ^ 44) with 17592186044416 in *.
  change (2 ^ 127) with 170141183460469231731687303715884105728 in *.
  change (2 ^ 182) with
    6129982163463555433433388108601236734474956488734408704 in *.
  apply (scale_bounds _ _ _ u) in Herr1; [|lia].
  replace (2 * (mp * alpha - n * g * 6214967485771284) * u)
    with (2 * (mp * (alpha * u) - n * (g * u) * 6214967485771284))
    in Herr1 by ring.
  rewrite HaU, HeU in Herr1.
  apply (scale_bounds _ _ _ t) in Herr2; [|lia].
  replace (2 * (md * beta * 8796093022208000 - mp * 9007199254740992) * t)
    with (8796093022208 * (2 * (1000 * (md * (beta * t)) - 1024 * (mp * t))))
    in Herr2 by ring.
  lia.
Qed.

Lemma stroke_km_increasing (a b : Z) :
  0 <= a -> a < b -> b < 2 ^ 32 -> SFltb (stroke_km a) (stroke_km b) = true.
Proof.
  intros Ha Hab Hb.
  destruct b as [|b|b]; [lia | | lia].
  destruct (stroke_km_error b Hb) as (Mb & Eb & Hnb & HEb & Herrb).
  destruct a as [|a|a]; [ | | lia].
  - destruct Hnb as [-> _]. reflexivity.
  - destruct (stroke_km_error a) as (Ma & Ea & Hna & HEa & Herra); [lia|].
    apply (SFltb_normal _ _ _ _ _ _ Hna Hnb 200); [lia..|].
    change (2 ^ 182) with
      6129982163463555433433388108601236734474956488734408704 in *.
    change (2 ^ 148) with 356811923176489970264571492362373784095686656 in *.
    revert Herra Herrb.
    generalize (Z.pos Ma * 2 ^ (Ea + 200)) (Z.pos Mb * 2 ^ (Eb + 200)).
    intros sa sb ? ?. lia.
Qed.

Lemma stroke_distance_of_count (a : Z) (d w l c : value) :
  0 <= a < 2 ^ 53 ->
  call FT.get_distance (Swimming (VInt a) d w l c) = Ok (VFloat (stroke_km a))
  /\ call HW.get_distance (Swimming (VInt a) d w l c)
     = Ok (VFloat (stroke_km a)).
Proof.
  intros Ha. rewrite <- get_distance_agree.
  assert (Hconv : long_as_double a = Ok (float_of_Z a)).
  { unfold long_as_double. destruct a as [|a|a]; [done | | lia].
    destruct (float_of_Z_exact a) as (m & e & [-> _] & _); [lia|done]. }
  assert (call FT.get_distance (Swimming (VInt a) d w l c)
          = Ok (VFloat (stroke_km a))); [|done].
  run_method. unfold mul, float_binop, as_doubles.
  cbn [is_number andb as_double]. rewrite Hconv. cbn. reflexivity.
Qed.

(** X9.  For swimming records that differ only in the stroke count, with
    counts below [2^32], a strictly larger count gives a strictly larger
    distance, in both modules and whatever the duration, the weight and
    the pool. *)
Theorem stroke_distance_strictly_increasing (a b : Z) (d w l c : value) :
  0 <= a -> a < b -> b < 2 ^ 32 ->
  distance_lt (call FT.get_distance (Swimming (VInt a) d w l c))
              (call FT.get_distance (Swimming (VInt b) d w l c))
  /\ distance_lt (call HW.get_distance (Swimming (VInt a) d w l c))
                 (call HW.get_distance (Swimming (VInt b) d w l c)).
Proof.
  intros Ha Hab Hb.
  assert (H53 : 2 ^ 32 < 2 ^ 53) by done.
  pose proof (stroke_km_increasing a b Ha Hab Hb) as Hlt.
  split;
    (exists (stroke_km a), (stroke_km b); split; [|split; [|exact Hlt]]);
    apply stroke_distance_of_count; lia.
Qed.

Lemma stroke_distance_strictly_increasing_witness :
  (0 <= 720 /\ 720 < 721 /\ 721 < 2 ^ 32)
  /\ distance_lt
       (call FT.get_distance
          (Swimming (VInt 720) (VInt 1) (VInt 80) (VInt 25) (VInt 40)))
       (call FT.get_distance
          (Swimming (VInt 721) (VInt 1) (VInt 80) (VInt 25) (VInt 40)))
  /\ distance_lt
       (call HW.get_distance
          (Swimming (VInt 720) (VInt 1) (VInt 80) (VInt 25) (VInt 40)))
       (call HW.get_distance
          (Swimming (VInt 721) (VInt 1) (VInt 80) (VInt 25) (VInt 40))).
Proof.
  assert (H1 : 0 <= 720) by lia.
  assert (H2 : 720 < 721) by lia.
  assert (H3 : 721 < 2 ^ 32) by reflexivity.
  split; [exact (conj H1 (conj H2 H3))|].
  exact (stroke_distance_strictly_increasing
           720 721 (VInt 1) (VInt 80) (VInt 25) (VInt 40) H1 H2 H3).
Defined.
